(** * Constraint and metadata attachment of the goa design DSL

    A shallow embedding of [dsl/validation.go] (Enum, Format, Pattern,
    Minimum, Maximum, MinLength, MaxLength, Required) and of the [Meta]
    function of the [dsl] package, together with the properties of these
    functions that the design document states.

    The Go functions read the expression under construction through
    [eval.Current()], mutate it in place and queue errors through
    [eval.ReportError].  Here the evaluation context is an explicit state
    (current expression, reported errors) that every function transforms. *)

From Stdlib Require Import ZArith List Sorted Ascii String Floats.
From stdpp Require Import gmap strings list.

Local Open Scope string_scope.
Local Open Scope Z_scope.

(* ===================================================================== *)
(** ** Package [expr]: the part of the data model the DSL touches         *)
(* ===================================================================== *)

Module expr.

(** The kinds of [expr.DataType] ([expr.Kind]).  The DSL functions name
    [IntKind] ... [Float64Kind], [StringKind], [BytesKind], [ArrayKind],
    [MapKind] and [ObjectKind]; the remaining constants of the enumeration
    are listed so that a kind outside every allowed set exists. *)
Inductive Kind : Set :=
| BooleanKind
| IntKind | Int32Kind | Int64Kind
| UIntKind | UInt32Kind | UInt64Kind
| Float32Kind | Float64Kind
| StringKind | BytesKind
| ArrayKind | ObjectKind | MapKind
| UserTypeKind | ResultTypeKind | AnyKind.

#[global] Instance Kind_eq_dec : EqDecision Kind.
Proof. solve_decision. Defined.

(** Dynamic types of the Go integers an [interface{}] may hold. *)
Inductive IntType : Set :=
| TInt | TInt8 | TInt16 | TInt32 | TInt64
| TUint | TUint8 | TUint16 | TUint32 | TUint64 | TUintptr.

(** A Go value of static type [interface{}]: its dynamic type and its
    contents.  [expr.ArrayVal] and [expr.MapVal] are named types distinct
    from the [[]interface{}] and [map[interface{}]interface{}] that their
    [ToSlice] and [ToMap] methods return.  A [float32] is carried by the
    [float64] that represents it exactly.  [VOther] stands for a value of
    any further type (a struct, a channel, ...), named by its type. *)
#[warnings="-register-all"]
Inductive GoVal : Type :=
| VNil
| VBool (b : bool)
| VInteger (t : IntType) (n : Z)
| VFloat32 (f : float)
| VFloat64 (f : float)
| VString (s : string)
| VArrayVal (elems : list GoVal)
| VMapVal (entries : list (GoVal * GoVal))
| VSlice (elems : list GoVal)
| VMap (entries : list (GoVal * GoVal))
| VOther (typ : string).

(** The methods of the [expr.DataType] interface that the DSL calls. *)
Record DataType : Type := {
  Kind' : Kind;
  Name : string;
  IsCompatible : GoVal -> bool
}.

Definition ValidationFormat : Type := string.

(** [expr.ValidationExpr].  A nil slice and an empty one are both [[]];
    the zero string is the unset format and pattern; a nil pointer is
    [None]. *)
Record ValidationExpr : Type := {
  Values : list GoVal;
  Format : ValidationFormat;
  Pattern : string;
  Minimum : option float;
  Maximum : option float;
  MinLength : option Z;
  MaxLength : option Z;
  Required : list string
}.

(** [&expr.ValidationExpr{}] *)
Definition emptyValidation : ValidationExpr :=
  {| Values := []; Format := ""; Pattern := "";
     Minimum := None; Maximum := None;
     MinLength := None; MaxLength := None; Required := [] |}.

(** [expr.MetaExpr] is [map[string][]string]; the nil map is [None]. *)
Definition MetaExpr : Type := option (gmap string (list string)).

(** [expr.AttributeExpr], restricted to the fields the DSL reads and
    writes.  [Type'] is the Go field [Type], nil when not yet known. *)
Record AttributeExpr : Type := {
  Type' : option DataType;
  Validation : option ValidationExpr;
  Meta : MetaExpr
}.

(** [expr.ResultTypeExpr] embeds (through [UserTypeExpr]) a pointer to an
    attribute; its [Meta] and [Validation] are the promoted fields of that
    attribute. *)
Record ResultTypeExpr : Type := {
  Attribute : AttributeExpr;
  TypeName : string;
  Identifier : string
}.

Record MethodExpr : Type := { MethodName : string; MethodMeta : MetaExpr }.
Record ServiceExpr : Type := { ServiceName : string; ServiceMeta : MetaExpr }.
Record APIExpr : Type := { APIName : string; APIMeta : MetaExpr }.

(** Modelled from the spec: [ValidationExpr.AddRequired] is defined in the
    [expr] package, outside the two files.  The design document says
    that Required "appends [names] to the accumulated required-name set,
    deduplicating is the caller's responsibility (not enforced here)". *)
Definition AddRequired (names : list string) (v : ValidationExpr)
  : ValidationExpr :=
  {| Values := Values v; Format := Format v; Pattern := Pattern v;
     Minimum := Minimum v; Maximum := Maximum v;
     MinLength := MinLength v; MaxLength := MaxLength v;
     Required := (Required v ++ names)%list |}.

End expr.

(* ===================================================================== *)
(** ** Package [eval]: the evaluation context                             *)
(* ===================================================================== *)

Module eval.
Import expr.

(** What [eval.Current()] may return, by dynamic type: the pointer types
    that the type switches of the DSL name, a value of another type that
    implements [expr.CompositeExpr] (known only through the attribute its
    [Attribute()] method returns), and anything else, including the nil of
    an empty context stack. *)
Inductive Expression : Type :=
| CompositeExprV (att : AttributeExpr)
| AttributeExprP (a : AttributeExpr)
| ResultTypeExprP (rt : ResultTypeExpr)
| MethodExprP (m : MethodExpr)
| ServiceExprP (s : ServiceExpr)
| APIExprP (api : APIExpr)
| OtherExpr (typ : string).

(** A queued error: either a call of [eval.ReportError(format, args...)],
    kept with its format string and its arguments rather than rendered, or
    the failure that [eval.IncompatibleDSL()] reports. *)
Inductive Error : Type :=
| Reported (format : string) (args : list GoVal)
| IncompatibleTarget.

(** The state a DSL function runs in: the expression being configured,
    which [eval.Current()] returns, and the errors reported so far, oldest
    first. *)
Record EvalState : Type := {
  Current : Expression;
  Errors : list Error
}.

(** Modelled from the spec: [eval.ReportError] is defined in the [eval]
    package, outside the two files.  The design document gives it as
    [ReportError(formatted message)], which "does not return a value, does
    not throw". *)
Definition ReportError (format : string) (args : list GoVal) (c : EvalState)
  : EvalState :=
  {| Current := Current c; Errors := Errors c ++ [Reported format args] |}.

(** Modelled from the spec: [eval.IncompatibleDSL] is defined in the [eval]
    package, outside the two files.  The design document gives it as
    [ReportIncompatibleTarget()], the second entry of the same
    accumulate-only interface. *)
Definition IncompatibleDSL (c : EvalState) : EvalState :=
  {| Current := Current c; Errors := Errors c ++ [IncompatibleTarget] |}.

(** In-place mutation of the current expression. *)
Definition setCurrent (e : Expression) (c : EvalState) : EvalState :=
  {| Current := e; Errors := Errors c |}.

End eval.

(* ===================================================================== *)
(** ** Package [dsl]: the constraint and metadata functions               *)
(* ===================================================================== *)

Module dsl.
Import expr eval.

(** What the DSL functions call outside the two files: three methods of
    the [expr] package and two functions of the Go standard library.
    [regexp_Compile p] is the error of [regexp.Compile(p)], [None] for nil;
    [strconv_ParseFloat s] is the value of [strconv.ParseFloat(s, 64)],
    [None] when its error is not nil. *)
Record Externals : Type := {
  IsSupportedValidationFormat : AttributeExpr -> ValidationFormat -> bool;
  ToMap : list (GoVal * GoVal) -> list (GoVal * GoVal);
  ToSlice : list GoVal -> list GoVal;
  regexp_Compile : string -> option string;
  strconv_ParseFloat : string -> option float
}.

(** *** Field updates *)

Definition withValidation (v : ValidationExpr) (a : AttributeExpr)
  : AttributeExpr :=
  {| Type' := Type' a; Validation := Some v; Meta := Meta a |}.

Definition withMeta (m : MetaExpr) (a : AttributeExpr) : AttributeExpr :=
  {| Type' := Type' a; Validation := Validation a; Meta := m |}.

Definition withAttribute (a : AttributeExpr) (rt : ResultTypeExpr)
  : ResultTypeExpr :=
  {| Attribute := a; TypeName := TypeName rt; Identifier := Identifier rt |}.

(** [if a.Validation == nil { a.Validation = &expr.ValidationExpr{} }]
    followed by the use of [a.Validation]. *)
Definition validationOf (a : AttributeExpr) : ValidationExpr :=
  match Validation a with
  | Some v => v
  | None => emptyValidation
  end.

Definition setValues (l : list GoVal) (v : ValidationExpr) : ValidationExpr :=
  {| Values := l; Format := Format v; Pattern := Pattern v;
     Minimum := Minimum v; Maximum := Maximum v;
     MinLength := MinLength v; MaxLength := MaxLength v;
     Required := Required v |}.

Definition setFormat (f : ValidationFormat) (v : ValidationExpr)
  : ValidationExpr :=
  {| Values := Values v; Format := f; Pattern := Pattern v;
     Minimum := Minimum v; Maximum := Maximum v;
     MinLength := MinLength v; MaxLength := MaxLength v;
     Required := Required v |}.

Definition setPattern (p : string) (v : ValidationExpr) : ValidationExpr :=
  {| Values := Values v; Format := Format v; Pattern := p;
     Minimum := Minimum v; Maximum := Maximum v;
     MinLength := MinLength v; MaxLength := MaxLength v;
     Required := Required v |}.

Definition setMinimum (f : float) (v : ValidationExpr) : ValidationExpr :=
  {| Values := Values v; Format := Format v; Pattern := Pattern v;
     Minimum := Some f; Maximum := Maximum v;
     MinLength := MinLength v; MaxLength := MaxLength v;
     Required := Required v |}.

Definition setMaximum (f : float) (v : ValidationExpr) : ValidationExpr :=
  {| Values := Values v; Format := Format v; Pattern := Pattern v;
     Minimum := Minimum v; Maximum := Some f;
     MinLength := MinLength v; MaxLength := MaxLength v;
     Required := Required v |}.

Definition setMinLength (n : Z) (v : ValidationExpr) : ValidationExpr :=
  {| Values := Values v; Format := Format v; Pattern := Pattern v;
     Minimum := Minimum v; Maximum := Maximum v;
     MinLength := Some n; MaxLength := MaxLength v;
     Required := Required v |}.

Definition setMaxLength (n : Z) (v : ValidationExpr) : ValidationExpr :=
  {| Values := Values v; Format := Format v; Pattern := Pattern v;
     Minimum := Minimum v; Maximum := Maximum v;
     MinLength := MinLength v; MaxLength := Some n;
     Required := Required v |}.

(** *** Conversion to [float64] *)

(** [float64(n)] for an integer [n]: the nearest double, ties to even. *)
Definition float64_of_Z (n : Z) : float :=
  SF2Prim (binary_normalize prec emax n 0 false).

(** The integer types listed in the type switch of [Minimum] and
    [Maximum]: [int, int8, int16, int32, int64, uint8, uint16, uint32,
    uint64].  [uint] and [uintptr] are not in the list. *)
Definition inNumberCase (t : IntType) : bool :=
  match t with
  | TInt | TInt8 | TInt16 | TInt32 | TInt64
  | TUint8 | TUint16 | TUint32 | TUint64 => true
  | TUint | TUintptr => false
  end.

Section Functions.

Variable X : Externals.

(** [incompatibleAttributeType] *)
Definition incompatibleAttributeType (validation actual expected : string)
  (c : EvalState) : EvalState :=
  ReportError
    "invalid %s validation definition: attribute must be %s (but type is %s)"
    [VString validation; VString expected; VString actual] c.

(** *** Enum *)

(** The first loop of [Enum], from index [i] on: reports each value that
    the known type rejects and clears [ok]. *)
Fixpoint checkValues (a : AttributeExpr) (i : Z) (vals : list GoVal)
  (ok : bool) (c : EvalState) : bool * EvalState :=
  match vals with
  | [] => (ok, c)
  | v :: rest =>
      match Type' a with
      | Some t =>
          if negb (IsCompatible t v)
          then checkValues a (i + 1) rest false
                 (ReportError
                    "value %#v at index %d is incompatible with attribute of type %s"
                    [v; VInteger TInt i; VString (Name t)] c)
          else checkValues a (i + 1) rest ok c
      | None => checkValues a (i + 1) rest ok c
      end
  end.

(** The body of the second loop of [Enum]: what is stored for [v]. *)
Definition storedValue (v : GoVal) : GoVal :=
  match v with
  | VMapVal m => VMap (ToMap X m)
  | VArrayVal l => VSlice (ToSlice X l)
  | _ => v
  end.

Definition Enum (vals : list GoVal) (c : EvalState) : EvalState :=
  match Current c with
  | AttributeExprP a =>
      let '(ok, c1) := checkValues a 0 vals true c in
      if ok
      then setCurrent
             (AttributeExprP
                (withValidation
                   (setValues (map storedValue vals) (validationOf a)) a))
             c1
      else c1
  | _ => c
  end.

(** *** Format *)

Definition Format (f : ValidationFormat) (c : EvalState) : EvalState :=
  match Current c with
  | AttributeExprP a =>
      let c1 :=
        if negb (IsSupportedValidationFormat X a f)
        then ReportError "invalid validation format %q" [VString f] c
        else c in
      let store :=
        setCurrent
          (AttributeExprP (withValidation (setFormat f (validationOf a)) a))
          c1 in
      match Type' a with
      | Some t =>
          if bool_decide (Kind' t ≠ StringKind)
          then incompatibleAttributeType "format" (Name t) "a string" c1
          else store
      | None => store
      end
  | _ => c
  end.

(** *** Pattern *)

Definition Pattern (p : string) (c : EvalState) : EvalState :=
  match Current c with
  | AttributeExprP a =>
      let compile :=
        match regexp_Compile X p with
        | Some err =>
            ReportError "invalid pattern %#v, %s" [VString p; VString err] c
        | None =>
            setCurrent
              (AttributeExprP
                 (withValidation (setPattern p (validationOf a)) a)) c
        end in
      match Type' a with
      | Some t =>
          if bool_decide (Kind' t ≠ StringKind)
          then incompatibleAttributeType "pattern" (Name t) "a string" c
          else compile
      | None => compile
      end
  | _ => c
  end.

(** *** Minimum and Maximum *)

(** The kind test of [Minimum] and [Maximum]: none of the eight integer
    and floating kinds. *)
Definition notNumberKind (k : Kind) : bool :=
  bool_decide (k ≠ IntKind) && bool_decide (k ≠ UIntKind) &&
  bool_decide (k ≠ Int32Kind) && bool_decide (k ≠ UInt32Kind) &&
  bool_decide (k ≠ Int64Kind) && bool_decide (k ≠ UInt64Kind) &&
  bool_decide (k ≠ Float32Kind) && bool_decide (k ≠ Float64Kind).

(** The type switch on [val], the same text in both functions: the
    [float64] to store, or [None] on the two branches that report
    "invalid number value" and return. *)
Definition numberValue (val : GoVal) : option float :=
  match val with
  | VFloat32 f | VFloat64 f => Some f
  | VInteger t n => if inNumberCase t then Some (float64_of_Z n) else None
  | VString s => strconv_ParseFloat X s
  | _ => None
  end.

Definition Minimum (val : GoVal) (c : EvalState) : EvalState :=
  match Current c with
  | AttributeExprP a =>
      let convert :=
        match numberValue val with
        | Some f =>
            setCurrent
              (AttributeExprP
                 (withValidation (setMinimum f (validationOf a)) a)) c
        | None => ReportError "invalid number value %#v" [val] c
        end in
      match Type' a with
      | Some t =>
          if notNumberKind (Kind' t)
          then incompatibleAttributeType "minimum" (Name t)
                 "an integer or a number" c
          else convert
      | None => convert
      end
  | _ => c
  end.

Definition Maximum (val : GoVal) (c : EvalState) : EvalState :=
  match Current c with
  | AttributeExprP a =>
      let convert :=
        match numberValue val with
        | Some f =>
            setCurrent
              (AttributeExprP
                 (withValidation (setMaximum f (validationOf a)) a)) c
        | None => ReportError "invalid number value %#v" [val] c
        end in
      match Type' a with
      | Some t =>
          if notNumberKind (Kind' t)
          then incompatibleAttributeType "maximum" (Name t)
                 "an integer or a number" c
          else convert
      | None => convert
      end
  | _ => c
  end.

(** *** MinLength and MaxLength *)

(** The kind test of [MinLength] and [MaxLength]. *)
Definition notLengthKind (k : Kind) : bool :=
  bool_decide (k ≠ BytesKind) && bool_decide (k ≠ StringKind) &&
  bool_decide (k ≠ ArrayKind) && bool_decide (k ≠ MapKind).

Definition MinLength (val : Z) (c : EvalState) : EvalState :=
  match Current c with
  | AttributeExprP a =>
      let store :=
        setCurrent
          (AttributeExprP
             (withValidation (setMinLength val (validationOf a)) a)) c in
      match Type' a with
      | Some t =>
          if notLengthKind (Kind' t)
          then incompatibleAttributeType "minimum length" (Name t)
                 "a string or an array" c
          else store
      | None => store
      end
  | _ => c
  end.

Definition MaxLength (val : Z) (c : EvalState) : EvalState :=
  match Current c with
  | AttributeExprP a =>
      let store :=
        setCurrent
          (AttributeExprP
             (withValidation (setMaxLength val (validationOf a)) a)) c in
      match Type' a with
      | Some t =>
          if notLengthKind (Kind' t)
          then incompatibleAttributeType "maximum length" (Name t)
                 "a string or an array" c
          else store
      | None => store
      end
  | _ => c
  end.

(** *** Required *)

(** The part of [Required] after the type switch, on the attribute [at']
    that the switch selected; [wrap] puts the mutated attribute back where
    the pointer came from. *)
Definition requiredOn (names : list string) (at' : AttributeExpr)
  (wrap : AttributeExpr -> Expression) (c : EvalState) : EvalState :=
  let store :=
    setCurrent
      (wrap (withValidation (AddRequired names (validationOf at')) at')) c in
  match Type' at' with
  | Some t =>
      if bool_decide (Kind' t ≠ ObjectKind)
      then incompatibleAttributeType "required" (Name t) "an object" c
      else store
  | None => store
  end.

Definition Required (names : list string) (c : EvalState) : EvalState :=
  match Current c with
  | AttributeExprP def => requiredOn names def AttributeExprP c
  | ResultTypeExprP def =>
      requiredOn names (Attribute def)
        (fun a => ResultTypeExprP (withAttribute a def)) c
  | _ => IncompatibleDSL c
  end.

End Functions.

(** *** Meta *)

(** The closure [appendMeta] of [Meta]. *)
Definition appendMeta (meta : MetaExpr) (name : string) (value : list string)
  : MetaExpr :=
  let meta' : gmap string (list string) :=
    match meta with
    | Some m => m
    | None => ∅
    end in
  Some (<[name := (default [] (meta' !! name) ++ value)%list]> meta').

(** A [*expr.ResultTypeExpr] also satisfies the interface of the first
    case; either case appends to the [Meta] of the embedded attribute. *)
Definition Meta (name : string) (value : list string) (c : EvalState)
  : EvalState :=
  match Current c with
  | CompositeExprV att =>
      setCurrent
        (CompositeExprV (withMeta (appendMeta (expr.Meta att) name value) att))
        c
  | AttributeExprP e =>
      setCurrent
        (AttributeExprP (withMeta (appendMeta (expr.Meta e) name value) e)) c
  | ResultTypeExprP e =>
      setCurrent
        (ResultTypeExprP
           (withAttribute
              (withMeta (appendMeta (expr.Meta (Attribute e)) name value)
                 (Attribute e)) e)) c
  | MethodExprP e =>
      setCurrent
        (MethodExprP
           {| MethodName := MethodName e;
              MethodMeta := appendMeta (MethodMeta e) name value |}) c
  | ServiceExprP e =>
      setCurrent
        (ServiceExprP
           {| ServiceName := ServiceName e;
              ServiceMeta := appendMeta (ServiceMeta e) name value |}) c
  | APIExprP e =>
      setCurrent
        (APIExprP
           {| APIName := APIName e;
              APIMeta := appendMeta (APIMeta e) name value |}) c
  | OtherExpr _ => IncompatibleDSL c
  end.

End dsl.

(* ===================================================================== *)
(** ** A concrete environment                                             *)
(* ===================================================================== *)

(** One instance of [dsl.Externals], used to run the functions on closed
    inputs. *)
Module sample.
Import expr eval dsl.

(** The formats that the comment of [Format] lists, by their tags. *)
Definition supportedFormats : list string :=
  ["date"; "date-time"; "uuid"; "email"; "hostname"; "ipv4"; "ipv6"; "ip";
   "uri"; "mac"; "cidr"; "regexp"; "json"; "rfc1123"].

Definition isSupported (_ : AttributeExpr) (f : ValidationFormat) : bool :=
  bool_decide (f ∈ supportedFormats).

(** [ToSlice] and [ToMap] turn nested [ArrayVal] and [MapVal] into plain
    slices and maps. *)
Fixpoint plain (v : GoVal) : GoVal :=
  match v with
  | VArrayVal l => VSlice (map plain l)
  | VMapVal m => VMap (map (fun '(k, x) => (k, plain x)) m)
  | _ => v
  end.

Definition toSlice (l : list GoVal) : list GoVal := map plain l.
Definition toMap (m : list (GoVal * GoVal)) : list (GoVal * GoVal) :=
  map (fun '(k, x) => (k, plain x)) m.

(** A regular expression is refused when a bracket expression is left
    open; [inClass] tells whether the scan is inside one. *)
Fixpoint leftOpen (p : string) (inClass : bool) : bool :=
  match p with
  | EmptyString => inClass
  | String "["%char r => leftOpen r true
  | String "]"%char r => leftOpen r false
  | String _ r => leftOpen r inClass
  end.

Definition compile (p : string) : option string :=
  if leftOpen p false then Some "missing closing ]" else None.

(** Decimal literals [[+-]digits[.digits][(e|E)[+-]digits]], rounded to
    the nearest double, ties to even; a literal beyond the range of
    [float64] is an error, as is any other string. *)
Definition digitOf (a : ascii) : option Z :=
  let n := Z.of_nat (nat_of_ascii a) in
  if (48 <=? n) && (n <=? 57) then Some (n - 48) else None.

(** Reads a run of digits: the number read after [acc], how many digits
    were read after [n], and the rest of the string. *)
Fixpoint readDigits (s : string) (acc n : Z) : Z * Z * string :=
  match s with
  | EmptyString => (acc, n, s)
  | String a r =>
      match digitOf a with
      | Some d => readDigits r (10 * acc + d) (n + 1)
      | None => (acc, n, s)
      end
  end.

Definition readSign (s : string) : bool * string :=
  match s with
  | String "-"%char r => (true, r)
  | String "+"%char r => (false, r)
  | _ => (false, s)
  end.

(** The double nearest to [p / q], for [0 <= p] and [0 < q]. *)
Definition roundRatio (neg : bool) (p q : Z) : spec_float :=
  let s := Z.max 0 (Zdigits2 q + 55 - Zdigits2 p) in
  let n := p * 2 ^ s / q in
  let r := (p * 2 ^ s) mod q in
  let loc := if r =? 0 then loc_Exact else loc_Inexact (2 * r ?= q) in
  binary_round_aux prec emax neg n (- s) loc.

Definition roundDecimal (neg : bool) (m e10 : Z) : option float :=
  let sf :=
    if m =? 0 then S754_zero neg
    else if 0 <=? e10 then binary_round prec emax neg (Z.to_pos (m * 10 ^ e10)) 0
    else roundRatio neg m (10 ^ (- e10)) in
  match sf with
  | S754_infinity _ | S754_nan => None
  | _ => Some (SF2Prim sf)
  end.

(** The spellings of the infinities and of NaN that [strconv.ParseFloat]
    reads, whatever the case of their letters: "inf" and "infinity" with an
    optional sign, "nan" without one. *)
Definition lowerLetter (a : ascii) : ascii :=
  let n := nat_of_ascii a in
  if (65 <=? n)%nat && (n <=? 90)%nat then ascii_of_nat (n + 32) else a.

Fixpoint lower (s : string) : string :=
  match s with
  | EmptyString => EmptyString
  | String a r => String (lowerLetter a) (lower r)
  end.

Definition isInfinity (s : string) : bool :=
  bool_decide (lower s = "inf") || bool_decide (lower s = "infinity").

Definition special (s : string) : option float :=
  match s with
  | String "+"%char r => if isInfinity r then Some infinity else None
  | String "-"%char r => if isInfinity r then Some neg_infinity else None
  | _ =>
      if isInfinity s then Some infinity
      else if bool_decide (lower s = "nan") then Some nan
      else None
  end.

Definition parseDecimal (s : string) : option float :=
  let '(neg, s1) := readSign s in
  let '(m1, n1, s2) := readDigits s1 0 0 in
  let '(m, nfrac, s3) :=
    match s2 with
    | String "."%char r => readDigits r m1 0
    | _ => (m1, 0, s2)
    end in
  if n1 + nfrac =? 0 then None
  else
    match s3 with
    | EmptyString => roundDecimal neg m (- nfrac)
    | String c r =>
        if bool_decide (c = "e"%char) || bool_decide (c = "E"%char)
        then
          let '(eneg, s4) := readSign r in
          match readDigits s4 0 0 with
          | (e, ne, EmptyString) =>
              if ne =? 0 then None
              else roundDecimal neg m ((if eneg then - e else e) - nfrac)
          | _ => None
          end
        else None
    end.

(** [strconv.ParseFloat(s, 64)] on the special spellings and on decimal
    literals; hexadecimal literals are not read. *)
Definition parseFloat (s : string) : option float :=
  match special s with
  | Some f => Some f
  | None => parseDecimal s
  end.

Definition env : Externals :=
  {| IsSupportedValidationFormat := isSupported;
     ToMap := toMap;
     ToSlice := toSlice;
     regexp_Compile := compile;
     strconv_ParseFloat := parseFloat |}.

End sample.

(* ===================================================================== *)
(** ** Closed inputs                                                      *)
(* ===================================================================== *)

Module fixtures.
Import expr eval.

Definition attribute (t : option DataType) : AttributeExpr :=
  {| Type' := t; Validation := None; Meta := None |}.

(** A primitive type of kind [k] that accepts [v] when [accepts v]. *)
Definition primitive (k : Kind) (name : string) (accepts : GoVal -> bool)
  : DataType :=
  {| Kind' := k; Name := name; IsCompatible := accepts |}.

Definition isInteger (v : GoVal) : bool :=
  match v with
  | VInteger _ _ => true
  | _ => false
  end.

Definition isText (v : GoVal) : bool :=
  match v with
  | VString _ => true
  | _ => false
  end.

Definition Int : DataType := primitive IntKind "int" isInteger.
Definition String' : DataType := primitive StringKind "string" isText.

Definition on (e : Expression) : EvalState :=
  {| Current := e; Errors := [] |}.

Definition onAttribute (t : option DataType) : EvalState :=
  on (AttributeExprP (attribute t)).

Definition method : Expression :=
  MethodExprP {| MethodName := "show"; MethodMeta := None |}.


End fixtures.

(* ===================================================================== *)
(** ** Properties                                                         *)
(* ===================================================================== *)

Import expr eval dsl.

(** The target of a constraint function other than [Required]. *)
Definition plainAttribute (e : Expression) : bool :=
  match e with
  | AttributeExprP _ => true
  | _ => false
  end.

(** The targets of [Required]. *)
Definition requiredTarget (e : Expression) : bool :=
  match e with
  | AttributeExprP _ | ResultTypeExprP _ => true
  | _ => false
  end.

(** [a.Type == nil || P(a.Type.Kind())]: the type is unknown, or its kind
    satisfies [P]. *)
Definition unknownOr (P : Kind -> bool) (a : AttributeExpr) : bool :=
  match Type' a with
  | Some t => P (Kind' t)
  | None => true
  end.

Definition isString (k : Kind) : bool := bool_decide (k = StringKind).
Definition isObject (k : Kind) : bool := bool_decide (k = ObjectKind).
Definition isNumber (k : Kind) : bool := negb (notNumberKind k).
Definition isLength (k : Kind) : bool := negb (notLengthKind k).

(** The attribute [a] after a function stored [v] as its validation. *)
Definition stored (v : ValidationExpr) (a : AttributeExpr) (c : EvalState)
  : EvalState :=
  setCurrent (AttributeExprP (withValidation v a)) c.

(** The values that the type switch of [Minimum] and [Maximum] converts
    without parsing. *)
Definition handledNumber (val : GoVal) : bool :=
  match val with
  | VFloat32 _ | VFloat64 _ => true
  | VInteger t _ => inNumberCase t
  | _ => false
  end.

Definition isStringValue (val : GoVal) : bool :=
  match val with
  | VString _ => true
  | _ => false
  end.

(** The values that the known type [t] rejects, with their indices,
    counting from [k]. *)
Fixpoint rejected (t : DataType) (k : nat) (vals : list GoVal)
  : list (nat * GoVal) :=
  match vals with
  | [] => []
  | v :: rest =>
      if IsCompatible t v then rejected t (S k) rest
      else (k, v) :: rejected t (S k) rest
  end.

(** The error that [Enum] reports for the value [iv.2] at index [iv.1]. *)
Definition incompatibleValue (t : DataType) (iv : nat * GoVal) : Error :=
  Reported "value %#v at index %d is incompatible with attribute of type %s"
    [iv.2; VInteger TInt (Z.of_nat iv.1); VString (Name t)].

(** The attribute that [Required] selects in its type switch. *)
Definition attributeOf (e : Expression) : option AttributeExpr :=
  match e with
  | AttributeExprP a => Some a
  | ResultTypeExprP rt => Some (Attribute rt)
  | _ => None
  end.


(** The metadata record of a target that [Meta] accepts. *)
Definition metaOf (e : Expression) : MetaExpr :=
  match e with
  | CompositeExprV a | AttributeExprP a => expr.Meta a
  | ResultTypeExprP rt => expr.Meta (Attribute rt)
  | MethodExprP m => MethodMeta m
  | ServiceExprP s => ServiceMeta s
  | APIExprP api => APIMeta api
  | OtherExpr _ => None
  end.

Definition acceptsMeta (e : Expression) : bool :=
  match e with
  | OtherExpr _ => false
  | _ => true
  end.

(** The sequence stored under [key]; empty without a record or a key. *)
Definition metaValues (meta : MetaExpr) (key : string) : list string :=
  match meta with
  | Some m => default [] (m !! key)
  | None => []
  end.

(** The validation record of the attribute that a target holds, the empty
    record when the attribute has none yet. *)
Definition recordOf (e : Expression) : ValidationExpr :=
  match attributeOf e with
  | Some a => validationOf a
  | None => emptyValidation
  end.

(** The target [e] with [m] as its metadata record. *)
Definition withMetaOf (m : MetaExpr) (e : Expression) : Expression :=
  match e with
  | CompositeExprV a => CompositeExprV (withMeta m a)
  | AttributeExprP a => AttributeExprP (withMeta m a)
  | ResultTypeExprP rt =>
      ResultTypeExprP (withAttribute (withMeta m (Attribute rt)) rt)
  | MethodExprP x => MethodExprP {| MethodName := MethodName x; MethodMeta := m |}
  | ServiceExprP x =>
      ServiceExprP {| ServiceName := ServiceName x; ServiceMeta := m |}
  | APIExprP x => APIExprP {| APIName := APIName x; APIMeta := m |}
  | OtherExpr _ => e
  end.

(** The allowed kinds of the length bounds. *)
Definition lengthKinds : list Kind :=
  [BytesKind; StringKind; ArrayKind; MapKind].

(** The allowed kinds of the numeric bounds. *)
Definition numberKinds : list Kind :=
  [IntKind; UIntKind; Int32Kind; UInt32Kind; Int64Kind; UInt64Kind;
   Float32Kind; Float64Kind].

(** [a.Type.Name()], read only where the type is known. *)
Definition typeName (a : AttributeExpr) : string :=
  match Type' a with
  | Some t => Name t
  | None => ""
  end.

(** The type of the attribute that a target holds. *)
Definition typeOf (e : Expression) : option DataType :=
  match attributeOf e with
  | Some a => Type' a
  | None => None
  end.

(** The fields of a validation record. *)
Inductive Field : Set :=
| FValues | FFormat | FPattern | FMinimum | FMaximum
| FMinLength | FMaxLength | FRequired.

(** The records [v] and [w] agree on the field [fd]. *)
Definition sameField (fd : Field) (v w : ValidationExpr) : Prop :=
  match fd with
  | FValues => Values v = Values w
  | FFormat => expr.Format v = expr.Format w
  | FPattern => expr.Pattern v = expr.Pattern w
  | FMinimum => expr.Minimum v = expr.Minimum w
  | FMaximum => expr.Maximum v = expr.Maximum w
  | FMinLength => expr.MinLength v = expr.MinLength w
  | FMaxLength => expr.MaxLength v = expr.MaxLength w
  | FRequired => expr.Required v = expr.Required w
  end.

(** A state with the target [e] and no error yet. *)
Definition startOn (e : Expression) : EvalState :=
  {| Current := e; Errors := [] |}.

(** The state [r] reached from a state without errors, replayed after the
    errors [es]. *)
Definition after (es : list Error) (r : EvalState) : EvalState :=
  {| Current := Current r; Errors := (es ++ Errors r)%list |}.

(** From the state [c] to the state [c'] the target keeps its variant, the
    type and the metadata of its attribute, and every field of its
    validation record other than [fd]. *)
Definition keepsAllBut (fd : Field) (c c' : EvalState) : Prop :=
  plainAttribute (Current c') = plainAttribute (Current c) /\
  typeOf (Current c') = typeOf (Current c) /\
  metaOf (Current c') = metaOf (Current c) /\
  forall g, g <> fd -> sameField g (recordOf (Current c')) (recordOf (Current c)).

(** From the state [c] to the state [c'] the errors of [c] are kept, in
    their order, and at most [k] errors are added after them. *)
Definition reportsAtMost (k : nat) (c c' : EvalState) : Prop :=
  exists new : list Error,
    Errors c' = (Errors c ++ new)%list /\ (length new <= k)%nat.

(** The attribute [a] with its type forgotten. *)
Definition untyped (a : AttributeExpr) : AttributeExpr :=
  {| Type' := None; Validation := Validation a; expr.Meta := expr.Meta a |}.

(** *** Targets that a function does not accept *)

(** Unfolds the kind tests once the type of the attribute is split. *)
Ltac split_type a :=
  unfold unknownOr, isString, isObject, isNumber, isLength in *;
  destruct (Type' a) as [t|] eqn:Htype; simpl in *;
  repeat case_bool_decide; simpl in *;
  try discriminate; try congruence.

Section Targets.

Variable X : Externals.

(** C1, what the code does.  On a target that is not a plain attribute,
    Enum, Format, Pattern, Minimum, Maximum, MinLength and MaxLength return
    without reporting anything and leave the whole state as it was: their
    type assertion has no else branch.  Required, on a target that is
    neither a plain attribute nor a result type, does report the
    incompatible-target failure, as [Meta] does in its default case, and
    leaves the target as it was. *)
Theorem constraint_on_other_target (c : EvalState) :
  plainAttribute (Current c) = false ->
  (forall vals, Enum X vals c = c) /\
  (forall f, Format X f c = c) /\
  (forall p, Pattern X p c = c) /\
  (forall val, Minimum X val c = c) /\
  (forall val, Maximum X val c = c) /\
  (forall n, MinLength n c = c) /\
  (forall n, MaxLength n c = c) /\
  (requiredTarget (Current c) = false ->
   forall names,
     Required names c = IncompatibleDSL c /\
     Current (Required names c) = Current c /\
     Errors (Required names c) = (Errors c ++ [IncompatibleTarget])%list).
Proof.
  intros Hplain.
  unfold Enum, Format, Pattern, Minimum, Maximum, MinLength, MaxLength,
    Required.
  destruct (Current c) eqn:Hcur; simpl in Hplain; try discriminate;
    repeat split; auto; simpl in *; discriminate.
Qed.

End Targets.

(** C1, witness: a method as the current target. *)
Lemma constraint_on_other_target_witness :
  Enum sample.env [VInteger TInt 1] (fixtures.on fixtures.method)
  = fixtures.on fixtures.method.
Proof.
  apply (constraint_on_other_target sample.env (fixtures.on fixtures.method)).
  reflexivity.
Defined.

(** C1, the failing input evaluated.  With a method as the current target,
    none of the seven functions guarded by the assertion on
    [*expr.AttributeExpr] reports the incompatible-target failure: the
    error list stays empty. *)
Lemma silent_on_method :
  let c := fixtures.on fixtures.method in
  Enum sample.env [VInteger TInt 1] c <> IncompatibleDSL c /\
  Format sample.env "email" c <> IncompatibleDSL c /\
  Pattern sample.env "[a-z]+" c <> IncompatibleDSL c /\
  Minimum sample.env (VInteger TInt 1) c <> IncompatibleDSL c /\
  Maximum sample.env (VInteger TInt 1) c <> IncompatibleDSL c /\
  MinLength 1 c <> IncompatibleDSL c /\
  MaxLength 1 c <> IncompatibleDSL c /\
  Errors (Enum sample.env [VInteger TInt 1] c) = [].
Proof.
  cbv zeta. repeat split; try discriminate.
Qed.

(** *** Format, Pattern, Minimum and Maximum on a plain attribute *)

Section Values.

Variable X : Externals.

(** C2, what the code does.  On a plain attribute whose type is unknown or
    of kind string, [Format] with a tag that is not supported reports
    "invalid validation format" and then stores the tag all the same. *)
Theorem Format_unsupported_tag_is_stored (f : ValidationFormat)
  (a : AttributeExpr) (c : EvalState) :
  Current c = AttributeExprP a ->
  unknownOr isString a = true ->
  IsSupportedValidationFormat X a f = false ->
  Errors (Format X f c)
  = (Errors c ++ [Reported "invalid validation format %q" [VString f]])%list /\
  Current (Format X f c)
  = AttributeExprP (withValidation (setFormat f (validationOf a)) a) /\
  expr.Format (setFormat f (validationOf a)) = f /\
  expr.Format (recordOf (Current (Format X f c))) = f.
Proof.
  intros Hcur Hkind Hbad. unfold Format. rewrite Hcur, Hbad.
  split_type a; repeat split.
Qed.

(** C7.  On a plain attribute whose type is unknown or of kind string,
    [Pattern] with an expression that does not compile reports the error
    and changes nothing else, so that the pattern of the record is what it
    was, absent if it was absent; with an expression that compiles the
    pattern of the record afterwards is the expression as given, and
    nothing is reported. *)
Theorem Pattern_compiles_or_reports (p : string) (a : AttributeExpr)
  (c : EvalState) :
  Current c = AttributeExprP a ->
  unknownOr isString a = true ->
  (forall err, regexp_Compile X p = Some err ->
     Pattern X p c
     = ReportError "invalid pattern %#v, %s" [VString p; VString err] c /\
     Current (Pattern X p c) = Current c /\
     expr.Pattern (recordOf (Current (Pattern X p c)))
     = expr.Pattern (recordOf (Current c)) /\
     Errors (Pattern X p c) <> Errors c) /\
  (regexp_Compile X p = None ->
     Pattern X p c = stored (setPattern p (validationOf a)) a c /\
     expr.Pattern (recordOf (Current (Pattern X p c))) = p /\
     Errors (Pattern X p c) = Errors c).
Proof.
  intros Hcur Hkind. unfold Pattern. rewrite Hcur.
  split.
  - intros err Hcompile. rewrite Hcompile.
    assert (Hgrow : Errors (ReportError "invalid pattern %#v, %s"
                              [VString p; VString err] c) <> Errors c).
    { simpl. intros Heq.
      apply (f_equal (@length Error)) in Heq.
      rewrite length_app in Heq. simpl in Heq. lia. }
    split_type a; rewrite ?Hcur; auto.
  - intros Hcompile. rewrite Hcompile.
    split_type a; auto.
Qed.

(** [Minimum] and [Maximum] on a compatible target, by the outcome of the
    type switch. *)
Lemma Minimum_compatible (val : GoVal) (a : AttributeExpr) (c : EvalState) :
  Current c = AttributeExprP a ->
  unknownOr isNumber a = true ->
  Minimum X val c
  = match numberValue X val with
    | Some f => stored (setMinimum f (validationOf a)) a c
    | None => ReportError "invalid number value %#v" [val] c
    end.
Proof.
  intros Hcur Hkind. unfold Minimum. rewrite Hcur.
  split_type a.
  - apply negb_true_iff in Hkind. rewrite Hkind. reflexivity.
  - reflexivity.
Qed.

Lemma Maximum_compatible (val : GoVal) (a : AttributeExpr) (c : EvalState) :
  Current c = AttributeExprP a ->
  unknownOr isNumber a = true ->
  Maximum X val c
  = match numberValue X val with
    | Some f => stored (setMaximum f (validationOf a)) a c
    | None => ReportError "invalid number value %#v" [val] c
    end.
Proof.
  intros Hcur Hkind. unfold Maximum. rewrite Hcur.
  split_type a.
  - apply negb_true_iff in Hkind. rewrite Hkind. reflexivity.
  - reflexivity.
Qed.

(** C10.  On a compatible target, [Minimum] and [Maximum] with an argument
    that the type switch neither converts nor parses (a boolean, nil, a
    struct, ...) report "invalid number value" and leave the target, hence
    its minimum and maximum, as they were. *)
Theorem Minimum_Maximum_reject_other_values (val : GoVal)
  (a : AttributeExpr) (c : EvalState) :
  Current c = AttributeExprP a ->
  unknownOr isNumber a = true ->
  handledNumber val = false ->
  isStringValue val = false ->
  Minimum X val c = ReportError "invalid number value %#v" [val] c /\
  Maximum X val c = ReportError "invalid number value %#v" [val] c /\
  Current (Minimum X val c) = AttributeExprP a /\
  Current (Maximum X val c) = AttributeExprP a.
Proof.
  intros Hcur Hkind Hnum Hstr.
  rewrite (Minimum_compatible val a c Hcur Hkind).
  rewrite (Maximum_compatible val a c Hcur Hkind).
  assert (Hnone : numberValue X val = None).
  { destruct val; simpl in *; try reflexivity; try discriminate.
    rewrite Hnum. reflexivity. }
  rewrite Hnone. simpl. auto.
Qed.

(** C4, as amended.  On a compatible target, [Minimum] and [Maximum] leave
    in the record the [float64] of their argument: the value of a
    [float32] or [float64], the double nearest to an integer of one of the
    nine listed types, and for a string the number that
    [strconv.ParseFloat] returns with a nil error, whatever the string
    looks like; nothing is reported.  So the integer 42, the float 42.0
    and, where [strconv.ParseFloat] reads "42" as 42, the string "42" all
    leave 42.  For a string on which [strconv.ParseFloat] returns an
    error they report "invalid number value" and leave the field as it
    was. *)
Theorem Minimum_Maximum_normalize (a : AttributeExpr) (c : EvalState) :
  Current c = AttributeExprP a ->
  unknownOr isNumber a = true ->
  (forall val f,
     val = VFloat32 f \/ val = VFloat64 f \/
     (exists t n, inNumberCase t = true /\ val = VInteger t n /\
                  f = float64_of_Z n) \/
     (exists s, val = VString s /\ strconv_ParseFloat X s = Some f) ->
     expr.Minimum (recordOf (Current (Minimum X val c))) = Some f /\
     expr.Maximum (recordOf (Current (Maximum X val c))) = Some f /\
     Errors (Minimum X val c) = Errors c /\
     Errors (Maximum X val c) = Errors c) /\
  (forall val,
     val = VInteger TInt 42 \/ val = VFloat64 42%float \/
     (val = VString "42" /\ strconv_ParseFloat X "42" = Some 42%float) ->
     expr.Minimum (recordOf (Current (Minimum X val c))) = Some 42%float /\
     expr.Maximum (recordOf (Current (Maximum X val c))) = Some 42%float) /\
  expr.Minimum (recordOf (Current (Minimum X (VInteger TInt64 (-42)) c)))
  = Some (-42)%float /\
  expr.Maximum (recordOf (Current (Maximum X (VInteger TUint64 9007199254740993) c)))
  = Some 9007199254740992%float /\
  (forall s, strconv_ParseFloat X s = None ->
     Minimum X (VString s) c
     = ReportError "invalid number value %#v" [VString s] c /\
     Maximum X (VString s) c
     = ReportError "invalid number value %#v" [VString s] c /\
     expr.Minimum (recordOf (Current (Minimum X (VString s) c)))
     = expr.Minimum (recordOf (Current c)) /\
     expr.Maximum (recordOf (Current (Maximum X (VString s) c)))
     = expr.Maximum (recordOf (Current c))).
Proof.
  intros Hcur Hkind.
  assert (Hstore : forall val f, numberValue X val = Some f ->
            expr.Minimum (recordOf (Current (Minimum X val c))) = Some f /\
            expr.Maximum (recordOf (Current (Maximum X val c))) = Some f /\
            Errors (Minimum X val c) = Errors c /\
            Errors (Maximum X val c) = Errors c).
  { intros val f Hval.
    rewrite (Minimum_compatible val a c Hcur Hkind).
    rewrite (Maximum_compatible val a c Hcur Hkind).
    rewrite Hval. repeat split. }
  split; [ | split; [ | split; [ | split ] ] ].
  - intros val f Hval. apply Hstore.
    destruct Hval as [-> | [-> | [(t & n & Ht & -> & ->) | (s & -> & Hs)]]];
      simpl; try reflexivity; try assumption.
    rewrite Ht. reflexivity.
  - intros val Hval.
    assert (Hsome : numberValue X val = Some 42%float).
    { destruct Hval as [-> | [-> | [-> Hs]]]; simpl; auto. }
    destruct (Hstore val _ Hsome) as (Hmin & Hmax & _). auto.
  - apply (Hstore (VInteger TInt64 (-42))). reflexivity.
  - apply (Hstore (VInteger TUint64 9007199254740993)). reflexivity.
  - intros s Hs.
    rewrite (Minimum_compatible _ a c Hcur Hkind).
    rewrite (Maximum_compatible _ a c Hcur Hkind).
    simpl. rewrite Hs. simpl. auto.
Qed.

End Values.

(** *** Enum *)

Lemma rejected_spec (t : DataType) (vals : list GoVal) :
  forall (k i : nat) (v : GoVal),
    (i, v) ∈ rejected t k vals <->
    (k <= i)%nat /\ vals !! (i - k)%nat = Some v /\ IsCompatible t v = false.
Proof.
  induction vals as [|w rest IH]; intros k i v; simpl.
  - split; [intros H; inversion H | intros (_ & H & _); discriminate].
  - assert (Hrest : (i, v) ∈ rejected t (S k) rest <->
                    (k < i)%nat /\ rest !! (i - S k)%nat = Some v /\
                    IsCompatible t v = false).
    { rewrite IH. split; intros (? & ? & ?); repeat split; auto; lia. }
    assert (Hcons : forall n, (k < n)%nat ->
                      (w :: rest) !! (n - k)%nat = rest !! (n - S k)%nat).
    { intros n Hn. replace (n - k)%nat with (S (n - S k)) by lia.
      reflexivity. }
    destruct (IsCompatible t w) eqn:Hw.
    + rewrite Hrest. split.
      * intros (Hlt & Hl & Hv). rewrite Hcons by lia.
        repeat split; auto; lia.
      * intros (Hle & Hl & Hv).
        destruct (decide (i = k)) as [->|Hne].
        -- rewrite Nat.sub_diag in Hl. simpl in Hl. congruence.
        -- rewrite Hcons in Hl by lia. repeat split; auto; lia.
    + rewrite elem_of_cons, Hrest. split.
      * intros [Heq | (Hlt & Hl & Hv)].
        -- inversion Heq; subst. rewrite Nat.sub_diag. simpl. auto.
        -- rewrite Hcons by lia. repeat split; auto; lia.
      * intros (Hle & Hl & Hv).
        destruct (decide (i = k)) as [->|Hne].
        -- rewrite Nat.sub_diag in Hl. simpl in Hl. left. congruence.
        -- right. rewrite Hcons in Hl by lia. repeat split; auto; lia.
Qed.

Lemma rejected_sorted (t : DataType) (vals : list GoVal) :
  forall k, StronglySorted lt (rejected t k vals).*1.
Proof.
  induction vals as [|w rest IH]; intros k; simpl.
  - constructor.
  - destruct (IsCompatible t w); [apply IH | ].
    simpl. constructor; [apply IH | ].
    apply Forall_forall. intros i Hi.
    apply list_elem_of_fmap in Hi as [[j v] [-> Hin]].
    apply rejected_spec in Hin. simpl. lia.
Qed.

Lemma rejected_nil (t : DataType) (vals : list GoVal) :
  forall k, rejected t k vals = [] <-> forallb (IsCompatible t) vals = true.
Proof.
  induction vals as [|w rest IH]; intros k; simpl; [tauto | ].
  destruct (IsCompatible t w); simpl; [apply IH | ].
  split; discriminate.
Qed.

(** The first loop of [Enum] on an attribute of known type. *)
Lemma checkValues_known (a : AttributeExpr) (t : DataType) :
  Type' a = Some t ->
  forall (vals : list GoVal) (k : nat) (ok : bool) (c : EvalState),
    checkValues a (Z.of_nat k) vals ok c
    = (ok && forallb (IsCompatible t) vals,
       {| Current := Current c;
          Errors := (Errors c
                     ++ map (incompatibleValue t) (rejected t k vals))%list |}).
Proof.
  intros Htype. induction vals as [|w rest IH]; intros k ok c; simpl.
  - rewrite andb_true_r, app_nil_r. destruct c; reflexivity.
  - rewrite Htype.
    replace (Z.of_nat k + 1) with (Z.of_nat (S k)) by lia.
    destruct (IsCompatible t w); simpl; rewrite IH.
    + reflexivity.
    + rewrite andb_false_r. simpl. rewrite <- app_assoc. reflexivity.
Qed.

(** The first loop of [Enum] on an attribute of unknown type. *)
Lemma checkValues_unknown (a : AttributeExpr) :
  Type' a = None ->
  forall (vals : list GoVal) (i : Z) (ok : bool) (c : EvalState),
    checkValues a i vals ok c = (ok, c).
Proof.
  intros Htype. induction vals as [|w rest IH]; intros i ok c; simpl.
  - reflexivity.
  - rewrite Htype. apply IH.
Qed.

Section EnumProperties.

Variable X : Externals.

(** C3.  [Enum] on a plain attribute of known type reports one error for
    each value that the type rejects, naming the value and its index, in
    the order of the indices and to the last value; when at least one value
    is rejected the attribute, hence its enum field, is as it was. *)
Theorem Enum_reports_every_incompatible_value (vals : list GoVal)
  (a : AttributeExpr) (t : DataType) (c : EvalState) :
  Current c = AttributeExprP a ->
  Type' a = Some t ->
  exists bad : list (nat * GoVal),
    (forall i v, (i, v) ∈ bad <->
                 vals !! i = Some v /\ IsCompatible t v = false) /\
    StronglySorted lt bad.*1 /\
    Errors (Enum X vals c)
    = (Errors c ++ map (incompatibleValue t) bad)%list /\
    (bad <> [] -> Current (Enum X vals c) = AttributeExprP a).
Proof.
  intros Hcur Htype. exists (rejected t 0 vals).
  split; [ | split; [apply rejected_sorted | ] ].
  - intros i v. rewrite rejected_spec, Nat.sub_0_r.
    split; [intros (_ & ? & ?) | intros (? & ?)]; repeat split; auto; lia.
  - unfold Enum. rewrite Hcur.
    change 0 with (Z.of_nat 0).
    rewrite (checkValues_known a t Htype). simpl.
    destruct (forallb (IsCompatible t) vals) eqn:Hall; simpl.
    + split; [reflexivity | ].
      intros Hbad. apply (rejected_nil t vals 0%nat) in Hall. contradiction.
    + split; [reflexivity | auto].
Qed.

(** C9, as amended.  After a successful [Enum] (the type is unknown, or
    accepts every value) the enum list of the record holds one value for
    each value given, in the order given: the value itself unless it is
    an [expr.MapVal] or an [expr.ArrayVal], in whose place the list holds
    the map and the slice that [ToMap] and [ToSlice] return.  Nothing is
    reported. *)
Theorem Enum_stores_values_in_order (vals : list GoVal) (a : AttributeExpr)
  (c : EvalState) :
  Current c = AttributeExprP a ->
  (forall t, Type' a = Some t -> forallb (IsCompatible t) vals = true) ->
  let kept := Values (recordOf (Current (Enum X vals c))) in
  length kept = length vals /\
  (forall i x, vals !! i = Some x ->
     (forall m, x <> VMapVal m) -> (forall l, x <> VArrayVal l) ->
     kept !! i = Some x) /\
  (forall i m, vals !! i = Some (VMapVal m) ->
     kept !! i = Some (VMap (ToMap X m))) /\
  (forall i l, vals !! i = Some (VArrayVal l) ->
     kept !! i = Some (VSlice (ToSlice X l))) /\
  Errors (Enum X vals c) = Errors c.
Proof.
  intros Hcur Hok.
  assert (Hlookup : forall i x, vals !! i = Some x ->
            map (storedValue X) vals !! i = Some (storedValue X x)).
  { intros i x Hx. change (map (storedValue X) vals)
      with (storedValue X <$> vals).
    rewrite list_lookup_fmap, Hx. reflexivity. }
  assert (Hrun : Enum X vals c
            = stored (setValues (map (storedValue X) vals) (validationOf a))
                a c).
  { unfold Enum. rewrite Hcur.
    destruct (Type' a) as [t|] eqn:Htype.
    + change 0 with (Z.of_nat 0).
      pose proof (Hok t eq_refl) as Hall.
      rewrite (checkValues_known a t Htype), Hall. simpl.
      apply (rejected_nil t vals 0%nat) in Hall.
      rewrite Hall. simpl. rewrite app_nil_r. destruct c; reflexivity.
    + rewrite (checkValues_unknown a Htype). reflexivity. }
  cbv zeta. rewrite Hrun. simpl.
  split; [ | split; [ | split; [ | split ] ] ].
  - apply length_map.
  - intros i x Hx Hmap Harr. rewrite (Hlookup i x Hx).
    destruct x; simpl; try reflexivity.
    + exfalso. eapply Harr. reflexivity.
    + exfalso. eapply Hmap. reflexivity.
  - intros i m Hx. apply (Hlookup i _ Hx).
  - intros i l Hx. apply (Hlookup i _ Hx).
  - reflexivity.
Qed.

End EnumProperties.

(** *** Unknown type, Required, Meta *)

Lemma appendMeta_values (meta : MetaExpr) (name : string)
  (value : list string) :
  exists m : gmap string (list string),
    appendMeta meta name value = Some m /\
    m !! name = Some (metaValues meta name ++ value)%list /\
    (forall key, key <> name ->
       metaValues (Some m) key = metaValues meta key).
Proof.
  unfold appendMeta. eexists. split; [reflexivity | ]. split.
  - rewrite lookup_insert_eq. destruct meta as [m|]; simpl; [reflexivity | ].
    rewrite lookup_empty. reflexivity.
  - intros key Hne. simpl. rewrite lookup_insert_ne by congruence.
    destruct meta as [m|]; simpl; [reflexivity | ].
    rewrite lookup_empty. reflexivity.
Qed.

Lemma Meta_on_accepted (name : string) (value : list string)
  (c : EvalState) :
  acceptsMeta (Current c) = true ->
  metaOf (Current (Meta name value c))
  = appendMeta (metaOf (Current c)) name value /\
  acceptsMeta (Current (Meta name value c)) = true /\
  Errors (Meta name value c) = Errors c.
Proof.
  intros Hacc. unfold Meta.
  destruct (Current c); simpl in *; try discriminate; auto.
Qed.


Section Accumulation.

Variable X : Externals.


End Accumulation.


(** C5.  On every target that [Meta] accepts and for every key, [Meta]
    with the values [V1] and then with the values [V2] leaves under the key
    the sequence stored before, followed by [V1], followed by [V2]: on a
    target with nothing under the key, [V1] followed by [V2].  The record
    exists afterwards, the other keys keep their sequences and no error is
    reported. *)
Theorem Meta_appends_in_call_order (K : string) (V1 V2 : list string)
  (c : EvalState) :
  acceptsMeta (Current c) = true ->
  let c2 := Meta K V2 (Meta K V1 c) in
  exists m : gmap string (list string),
    metaOf (Current c2) = Some m /\
    m !! K = Some (metaValues (metaOf (Current c)) K ++ V1 ++ V2)%list /\
    (metaValues (metaOf (Current c)) K = [] -> m !! K = Some (V1 ++ V2)%list) /\
    (forall key, key <> K ->
       metaValues (Some m) key = metaValues (metaOf (Current c)) key) /\
    Errors c2 = Errors c.
Proof.
  intros Hacc c2.
  destruct (Meta_on_accepted K V1 c Hacc) as (Hm1 & Hacc1 & Herr1).
  destruct (Meta_on_accepted K V2 _ Hacc1) as (Hm2 & _ & Herr2).
  destruct (appendMeta_values (metaOf (Current c)) K V1)
    as (m1 & Hap1 & Hk1 & Hother1).
  destruct (appendMeta_values (Some m1) K V2) as (m2 & Hap2 & Hk2 & Hother2).
  exists m2. subst c2.
  rewrite Hm2, Hm1, Hap1, Hap2, Herr2, Herr1.
  assert (HK : m2 !! K
               = Some (metaValues (metaOf (Current c)) K ++ V1 ++ V2)%list).
  { rewrite Hk2. simpl. rewrite Hk1. simpl.
    rewrite <- app_assoc. reflexivity. }
  repeat split; auto.
  - intros Hnone. rewrite HK, Hnone. reflexivity.
  - intros key Hne. rewrite Hother2, Hother1 by assumption. reflexivity.
Qed.

(* ===================================================================== *)
(** ** The properties on closed inputs                                    *)
(* ===================================================================== *)

(** C2, witness: an unsupported tag on a string attribute lands in the
    record. *)
Lemma Format_unsupported_tag_is_stored_witness :
  Current (Format sample.env "bogus" (fixtures.onAttribute (Some fixtures.String')))
  = AttributeExprP
      (withValidation (setFormat "bogus" emptyValidation)
         (fixtures.attribute (Some fixtures.String'))).
Proof.
  apply (Format_unsupported_tag_is_stored sample.env "bogus"
           (fixtures.attribute (Some fixtures.String'))
           (fixtures.onAttribute (Some fixtures.String')));
    reflexivity.
Defined.

(** C3, witness: the values 1, "two", 3 on an attribute of kind int. *)
Lemma Enum_reports_every_incompatible_value_witness :
  let vals := [VInteger TInt 1; VString "two"; VInteger TInt 3] in
  let c := fixtures.onAttribute (Some fixtures.Int) in
  exists bad : list (nat * GoVal),
    (forall i v, (i, v) ∈ bad <->
                 vals !! i = Some v /\ IsCompatible fixtures.Int v = false) /\
    StronglySorted lt bad.*1 /\
    Errors (Enum sample.env vals c)
    = (Errors c ++ map (incompatibleValue fixtures.Int) bad)%list /\
    (bad <> [] ->
     Current (Enum sample.env vals c)
     = AttributeExprP (fixtures.attribute (Some fixtures.Int))).
Proof.
  exact (Enum_reports_every_incompatible_value sample.env
           [VInteger TInt 1; VString "two"; VInteger TInt 3]
           (fixtures.attribute (Some fixtures.Int)) fixtures.Int
           (fixtures.onAttribute (Some fixtures.Int)) eq_refl eq_refl).
Defined.

(** The same call, evaluated: one error, for "two" at index 1, and nothing
    stored. *)
Example Enum_one_two_three_on_int :
  Enum sample.env [VInteger TInt 1; VString "two"; VInteger TInt 3]
    (fixtures.onAttribute (Some fixtures.Int))
  = {| Current := AttributeExprP (fixtures.attribute (Some fixtures.Int));
       Errors :=
         [Reported
            "value %#v at index %d is incompatible with attribute of type %s"
            [VString "two"; VInteger TInt 1; VString "int"]] |}.
Proof. reflexivity. Qed.

(** C4, witness: the string "42" as the minimum of an attribute of kind
    int. *)
Lemma Minimum_Maximum_normalize_witness :
  expr.Minimum
    (recordOf
       (Current
          (Minimum sample.env (VString "42")
             (fixtures.onAttribute (Some fixtures.Int)))))
  = Some 42%float.
Proof.
  destruct (Minimum_Maximum_normalize sample.env
              (fixtures.attribute (Some fixtures.Int))
              (fixtures.onAttribute (Some fixtures.Int)) eq_refl eq_refl)
    as (_ & H42 & _).
  apply (H42 (VString "42")).
  right. right. split; reflexivity.
Defined.

(** C4, counterexample.  "Inf" is no decimal number, and
    [strconv.ParseFloat] reads it as the positive infinity with a nil
    error: [Minimum] reports nothing and stores the infinity. *)
Lemma Minimum_stores_Inf :
  let c := Minimum sample.env (VString "Inf")
             (fixtures.onAttribute (Some fixtures.Int)) in
  Errors c = [] /\
  expr.Minimum (recordOf (Current c)) = Some infinity /\
  expr.Minimum (recordOf (Current c))
  <> expr.Minimum (recordOf (Current (fixtures.onAttribute (Some fixtures.Int)))).
Proof.
  cbv zeta. repeat split. discriminate.
Qed.

(** C5, witness: two calls on a method without metadata. *)
Lemma Meta_appends_in_call_order_witness :
  let c := fixtures.on fixtures.method in
  let c2 := Meta "swagger:tag:Backend" ["y"; "x"]
              (Meta "swagger:tag:Backend" ["x"] c) in
  exists m : gmap string (list string),
    metaOf (Current c2) = Some m /\
    m !! "swagger:tag:Backend"
    = Some (metaValues (metaOf (Current c)) "swagger:tag:Backend"
            ++ ["x"] ++ ["y"; "x"])%list /\
    (metaValues (metaOf (Current c)) "swagger:tag:Backend" = [] ->
     m !! "swagger:tag:Backend" = Some (["x"] ++ ["y"; "x"])%list) /\
    (forall key, key <> "swagger:tag:Backend" ->
       metaValues (Some m) key = metaValues (metaOf (Current c)) key) /\
    Errors c2 = Errors c.
Proof.
  exact (Meta_appends_in_call_order "swagger:tag:Backend" ["x"] ["y"; "x"]
           (fixtures.on fixtures.method) eq_refl).
Defined.

(** The same two calls, evaluated: "x" is kept twice. *)
Example Meta_keeps_duplicates :
  metaValues
    (metaOf
       (Current
          (Meta "swagger:tag:Backend" ["y"; "x"]
             (Meta "swagger:tag:Backend" ["x"] (fixtures.on fixtures.method)))))
    "swagger:tag:Backend"
  = ["x"; "y"; "x"].
Proof. vm_compute. reflexivity. Qed.


(** The values 1, "two", 3 on an attribute of unknown type are stored as
    they are. *)
Example Enum_one_two_three_on_unknown :
  Enum sample.env [VInteger TInt 1; VString "two"; VInteger TInt 3]
    (fixtures.onAttribute None)
  = stored
      (setValues [VInteger TInt 1; VString "two"; VInteger TInt 3]
         emptyValidation)
      (fixtures.attribute None) (fixtures.onAttribute None).
Proof. reflexivity. Qed.

(** C7, witness: an expression that compiles, on a string attribute. *)
Lemma Pattern_compiles_or_reports_witness :
  expr.Pattern
    (recordOf
       (Current
          (Pattern sample.env "[a-z]+"
             (fixtures.onAttribute (Some fixtures.String')))))
  = "[a-z]+".
Proof.
  destruct (Pattern_compiles_or_reports sample.env "[a-z]+"
              (fixtures.attribute (Some fixtures.String'))
              (fixtures.onAttribute (Some fixtures.String'))
              eq_refl eq_refl)
    as [_ Hcompiles].
  apply Hcompiles. reflexivity.
Defined.

(** An open bracket on the same attribute is reported and not stored. *)
Example Pattern_open_bracket :
  Pattern sample.env "[a-z" (fixtures.onAttribute (Some fixtures.String'))
  = {| Current := AttributeExprP (fixtures.attribute (Some fixtures.String'));
       Errors :=
         [Reported "invalid pattern %#v, %s"
            [VString "[a-z"; VString "missing closing ]"]] |}.
Proof. reflexivity. Qed.


(** C9, witness: a map value and a string on an attribute of unknown
    type. *)
Lemma Enum_stores_values_in_order_witness :
  let vals := [VMapVal [(VString "k", VArrayVal [VBool true])]; VString "x"] in
  let kept :=
    Values
      (recordOf (Current (Enum sample.env vals (fixtures.onAttribute None)))) in
  length kept = length vals /\
  (forall i x, vals !! i = Some x ->
     (forall m, x <> VMapVal m) -> (forall l, x <> VArrayVal l) ->
     kept !! i = Some x) /\
  (forall i m, vals !! i = Some (VMapVal m) ->
     kept !! i = Some (VMap (sample.toMap m))) /\
  (forall i l, vals !! i = Some (VArrayVal l) ->
     kept !! i = Some (VSlice (sample.toSlice l))) /\
  Errors (Enum sample.env vals (fixtures.onAttribute None)) = [].
Proof.
  apply (Enum_stores_values_in_order sample.env
           [VMapVal [(VString "k", VArrayVal [VBool true])]; VString "x"]
           (fixtures.attribute None) (fixtures.onAttribute None) eq_refl).
  intros t Htype. discriminate Htype.
Defined.

(** C9, counterexample.  [Enum] succeeds on an [expr.ArrayVal], and the
    enum list of the record afterwards holds a slice in its place: it is
    not the list given. *)
Lemma Enum_converts_ArrayVal :
  let vals := [VArrayVal [VArrayVal [VInteger TInt 1]]] in
  let c := Enum sample.env vals (fixtures.onAttribute None) in
  Errors c = [] /\
  Values (recordOf (Current c)) = [VSlice [VSlice [VInteger TInt 1]]] /\
  Values (recordOf (Current c)) <> vals.
Proof.
  cbv zeta. repeat split. simpl. discriminate.
Qed.

(** C10, witness: a boolean as the maximum of an attribute of kind int. *)
Lemma Minimum_Maximum_reject_other_values_witness :
  Maximum sample.env (VBool true) (fixtures.onAttribute (Some fixtures.Int))
  = ReportError "invalid number value %#v" [VBool true]
      (fixtures.onAttribute (Some fixtures.Int)).
Proof.
  apply (Minimum_Maximum_reject_other_values sample.env (VBool true)
           (fixtures.attribute (Some fixtures.Int))
           (fixtures.onAttribute (Some fixtures.Int)));
    reflexivity.
Defined.

(** [uint] is not among the types of the switch: an unsigned 42 is
    refused like a boolean. *)
Example Minimum_refuses_uint :
  Minimum sample.env (VInteger TUint 42) (fixtures.onAttribute (Some fixtures.Int))
  = ReportError "invalid number value %#v" [VInteger TUint 42]
      (fixtures.onAttribute (Some fixtures.Int)).
Proof. reflexivity. Qed.

(** A string attribute takes a format and both length bounds without an
    error. *)
Example email_with_length_bounds :
  MaxLength 254
    (MinLength 3
       (Format sample.env "email" (fixtures.onAttribute (Some fixtures.String'))))
  = stored
      {| Values := []; expr.Format := "email"; expr.Pattern := "";
         expr.Minimum := None; expr.Maximum := None;
         expr.MinLength := Some 3; expr.MaxLength := Some 254;
         expr.Required := [] |}
      (fixtures.attribute (Some fixtures.String'))
      (fixtures.onAttribute (Some fixtures.String')).
Proof. reflexivity. Qed.

(* ===================================================================== *)
(** ** Further properties of [Meta]                                       *)
(* ===================================================================== *)

Lemma appendMeta_twice (meta : MetaExpr) (name : string)
  (v1 v2 : list string) :
  appendMeta (appendMeta meta name v1) name v2
  = appendMeta meta name (v1 ++ v2)%list.
Proof.
  unfold appendMeta. f_equal.
  rewrite lookup_insert_eq, insert_insert_eq. simpl.
  rewrite app_assoc. reflexivity.
Qed.

Lemma appendMeta_swap (meta : MetaExpr) (k1 k2 : string)
  (v1 v2 : list string) :
  k1 <> k2 ->
  appendMeta (appendMeta meta k1 v1) k2 v2
  = appendMeta (appendMeta meta k2 v2) k1 v1.
Proof.
  intros Hne. unfold appendMeta. f_equal.
  rewrite !lookup_insert_ne by congruence.
  apply insert_insert_ne. congruence.
Qed.

(** [Meta] on an accepted target, in one step. *)
Lemma Meta_accepted (name : string) (value : list string) (c : EvalState) :
  acceptsMeta (Current c) = true ->
  Meta name value c
  = setCurrent
      (withMetaOf (appendMeta (metaOf (Current c)) name value) (Current c)) c.
Proof.
  intros Hacc. unfold Meta.
  destruct (Current c); simpl in *; try discriminate; reflexivity.
Qed.

Lemma withMetaOf_again (m1 m2 : MetaExpr) (e : Expression) :
  withMetaOf m2 (withMetaOf m1 e) = withMetaOf m2 e.
Proof. destruct e; reflexivity. Qed.

Lemma metaOf_withMetaOf (m : MetaExpr) (e : Expression) :
  acceptsMeta e = true ->
  metaOf (withMetaOf m e) = m /\ acceptsMeta (withMetaOf m e) = true.
Proof. destruct e; simpl; intros; try discriminate; auto. Qed.

(** X1.  Two calls of [Meta] with the same key amount to one call with the two
    value lists joined: the whole state is the same. *)
Theorem Meta_calls_merge (K : string) (V1 V2 : list string) (c : EvalState) :
  acceptsMeta (Current c) = true ->
  Meta K V2 (Meta K V1 c) = Meta K (V1 ++ V2)%list c.
Proof.
  intros Hacc.
  rewrite (Meta_accepted K V1 c Hacc), (Meta_accepted K _ c Hacc).
  destruct (metaOf_withMetaOf (appendMeta (metaOf (Current c)) K V1)
              (Current c) Hacc) as [Hmeta Hacc1].
  rewrite Meta_accepted by exact Hacc1. simpl.
  rewrite Hmeta, withMetaOf_again, appendMeta_twice. reflexivity.
Qed.

(** X1, witness. *)
Lemma Meta_calls_merge_witness :
  Meta "struct:tag:json" ["omitempty"]
    (Meta "struct:tag:json" ["myName"] (fixtures.onAttribute None))
  = Meta "struct:tag:json" ["myName"; "omitempty"] (fixtures.onAttribute None).
Proof.
  apply (Meta_calls_merge "struct:tag:json" ["myName"] ["omitempty"]
           (fixtures.onAttribute None)).
  reflexivity.
Defined.

(** X2.  Calls of [Meta] with different keys can be made in either order. *)
Theorem Meta_distinct_keys_commute (K1 K2 : string) (V1 V2 : list string)
  (c : EvalState) :
  acceptsMeta (Current c) = true ->
  K1 <> K2 ->
  Meta K2 V2 (Meta K1 V1 c) = Meta K1 V1 (Meta K2 V2 c).
Proof.
  intros Hacc Hne.
  rewrite (Meta_accepted K1 V1 c Hacc), (Meta_accepted K2 V2 c Hacc).
  destruct (metaOf_withMetaOf (appendMeta (metaOf (Current c)) K1 V1)
              (Current c) Hacc) as [Hmeta1 Hacc1].
  destruct (metaOf_withMetaOf (appendMeta (metaOf (Current c)) K2 V2)
              (Current c) Hacc) as [Hmeta2 Hacc2].
  rewrite !Meta_accepted by assumption. simpl.
  rewrite Hmeta1, Hmeta2, !withMetaOf_again.
  rewrite (appendMeta_swap _ K1 K2) by exact Hne. reflexivity.
Qed.

(** X2, witness. *)
Lemma Meta_distinct_keys_commute_witness :
  Meta "swagger:summary" ["Short"]
    (Meta "swagger:generate" ["false"] (fixtures.on fixtures.method))
  = Meta "swagger:generate" ["false"]
      (Meta "swagger:summary" ["Short"] (fixtures.on fixtures.method)).
Proof.
  apply (Meta_distinct_keys_commute "swagger:generate" "swagger:summary"
           ["false"] ["Short"] (fixtures.on fixtures.method)).
  - reflexivity.
  - discriminate.
Defined.

(** X3.  [Meta] with a key and no value, as in [Meta("struct:error:name")],
    still records the key: afterwards the record exists and holds the key,
    every key has the values it had, and a second such call changes
    nothing more. *)
Theorem Meta_without_values_marks_key (K : string) (c : EvalState) :
  acceptsMeta (Current c) = true ->
  exists m : gmap string (list string),
    metaOf (Current (Meta K [] c)) = Some m /\
    is_Some (m !! K) /\
    (forall key,
       metaValues (Some m) key = metaValues (metaOf (Current c)) key) /\
    Meta K [] (Meta K [] c) = Meta K [] c.
Proof.
  intros Hacc.
  destruct (Meta_on_accepted K [] c Hacc) as (Hmeta & _ & _).
  destruct (appendMeta_values (metaOf (Current c)) K [])
    as (m & Hap & HK & Hother).
  exists m. rewrite Hmeta, Hap.
  split; [reflexivity | ]. split; [rewrite HK; eauto | ]. split.
  - intros key. destruct (decide (key = K)) as [->|Hne].
    + simpl. rewrite HK. simpl. apply app_nil_r.
    + apply Hother. exact Hne.
  - apply (Meta_calls_merge K [] [] c Hacc).
Qed.

(** X3, witness. *)
Lemma Meta_without_values_marks_key_witness :
  exists m : gmap string (list string),
    metaOf (Current (Meta "struct:error:name" [] (fixtures.onAttribute None)))
    = Some m /\
    is_Some (m !! "struct:error:name") /\
    (forall key,
       metaValues (Some m) key
       = metaValues (metaOf (Current (fixtures.onAttribute None))) key) /\
    Meta "struct:error:name" []
      (Meta "struct:error:name" [] (fixtures.onAttribute None))
    = Meta "struct:error:name" [] (fixtures.onAttribute None).
Proof.
  exact (Meta_without_values_marks_key "struct:error:name"
           (fixtures.onAttribute None) eq_refl).
Defined.

(* ===================================================================== *)
(** ** Further properties of the constraint functions                     *)
(* ===================================================================== *)

(** *** Each function on a plain attribute, in one step *)

Lemma notNumberKind_spec (k : Kind) :
  notNumberKind k = negb (bool_decide (k ∈ numberKinds)).
Proof. destruct k; reflexivity. Qed.

Lemma notLengthKind_spec (k : Kind) :
  notLengthKind k = negb (bool_decide (k ∈ lengthKinds)).
Proof. destruct k; reflexivity. Qed.

Section Steps.

Variable X : Externals.
Variables (a : AttributeExpr) (c : EvalState).
Hypothesis Hcur : Current c = AttributeExprP a.

Lemma Enum_step (vals : list GoVal) :
  Enum X vals c
  = match Type' a with
    | Some t =>
        if forallb (IsCompatible t) vals
        then stored (setValues (map (storedValue X) vals) (validationOf a)) a c
        else {| Current := Current c;
                Errors := (Errors c ++ map (incompatibleValue t)
                                         (rejected t 0 vals))%list |}
    | None =>
        stored (setValues (map (storedValue X) vals) (validationOf a)) a c
    end.
Proof.
  unfold Enum. rewrite Hcur.
  destruct (Type' a) as [t|] eqn:Htype.
  - change 0 with (Z.of_nat 0). rewrite (checkValues_known a t Htype). simpl.
    destruct (forallb (IsCompatible t) vals) eqn:Hall;
      [ | rewrite Hcur; reflexivity ].
    apply (rejected_nil t vals 0%nat) in Hall. rewrite Hall. simpl.
    rewrite app_nil_r. destruct c; reflexivity.
  - rewrite (checkValues_unknown a Htype). reflexivity.
Qed.

Lemma Format_step (f : ValidationFormat) :
  Format X f c
  = let c1 := if IsSupportedValidationFormat X a f then c
              else ReportError "invalid validation format %q" [VString f] c in
    if unknownOr isString a
    then stored (setFormat f (validationOf a)) a c1
    else incompatibleAttributeType "format" (typeName a) "a string" c1.
Proof.
  unfold Format, unknownOr, isString, typeName. rewrite Hcur.
  destruct (IsSupportedValidationFormat X a f);
    destruct (Type' a) as [t|]; simpl; repeat case_bool_decide;
    try reflexivity; try contradiction.
Qed.

Lemma Pattern_step (p : string) :
  Pattern X p c
  = if unknownOr isString a
    then match regexp_Compile X p with
         | Some err =>
             ReportError "invalid pattern %#v, %s" [VString p; VString err] c
         | None => stored (setPattern p (validationOf a)) a c
         end
    else incompatibleAttributeType "pattern" (typeName a) "a string" c.
Proof.
  unfold Pattern, unknownOr, isString, typeName. rewrite Hcur.
  destruct (Type' a) as [t|]; simpl; repeat case_bool_decide;
    try reflexivity; try contradiction.
Qed.

Lemma Minimum_step (val : GoVal) :
  Minimum X val c
  = if unknownOr isNumber a
    then match numberValue X val with
         | Some f => stored (setMinimum f (validationOf a)) a c
         | None => ReportError "invalid number value %#v" [val] c
         end
    else incompatibleAttributeType "minimum" (typeName a)
           "an integer or a number" c.
Proof.
  unfold Minimum, unknownOr, isNumber, typeName. rewrite Hcur.
  destruct (Type' a) as [t|]; simpl; [ | reflexivity ].
  destruct (notNumberKind (Kind' t)); reflexivity.
Qed.

Lemma Maximum_step (val : GoVal) :
  Maximum X val c
  = if unknownOr isNumber a
    then match numberValue X val with
         | Some f => stored (setMaximum f (validationOf a)) a c
         | None => ReportError "invalid number value %#v" [val] c
         end
    else incompatibleAttributeType "maximum" (typeName a)
           "an integer or a number" c.
Proof.
  unfold Maximum, unknownOr, isNumber, typeName. rewrite Hcur.
  destruct (Type' a) as [t|]; simpl; [ | reflexivity ].
  destruct (notNumberKind (Kind' t)); reflexivity.
Qed.

Lemma MinLength_step (n : Z) :
  MinLength n c
  = if unknownOr isLength a
    then stored (setMinLength n (validationOf a)) a c
    else incompatibleAttributeType "minimum length" (typeName a)
           "a string or an array" c.
Proof.
  unfold MinLength, unknownOr, isLength, typeName. rewrite Hcur.
  destruct (Type' a) as [t|]; simpl; [ | reflexivity ].
  destruct (notLengthKind (Kind' t)); reflexivity.
Qed.

Lemma MaxLength_step (n : Z) :
  MaxLength n c
  = if unknownOr isLength a
    then stored (setMaxLength n (validationOf a)) a c
    else incompatibleAttributeType "maximum length" (typeName a)
           "a string or an array" c.
Proof.
  unfold MaxLength, unknownOr, isLength, typeName. rewrite Hcur.
  destruct (Type' a) as [t|]; simpl; [ | reflexivity ].
  destruct (notLengthKind (Kind' t)); reflexivity.
Qed.

End Steps.

(** *** A known kind outside the allowed set *)

Section Kinds.

Variable X : Externals.

(** X4.  On a plain attribute whose known kind is not allowed, a function does
    not look at its argument: [Pattern] does not compile the expression,
    [Minimum] and [Maximum] do not convert the value.  It reports the one
    type error that names the type and leaves the target as it was.
    [Format] alone tests its tag first, so that an unsupported tag on a
    type that is not a string yields two errors, the tag error first. *)
Theorem kind_outside_allowed_set (a : AttributeExpr) (t : DataType)
  (c : EvalState) :
  Current c = AttributeExprP a ->
  Type' a = Some t ->
  (Kind' t <> StringKind ->
   (forall p,
      Pattern X p c
      = incompatibleAttributeType "pattern" (Name t) "a string" c) /\
   (forall f,
      Errors (Format X f c)
      = (Errors c
         ++ (if IsSupportedValidationFormat X a f then []
             else [Reported "invalid validation format %q" [VString f]])
         ++ [Reported
               "invalid %s validation definition: attribute must be %s (but type is %s)"
               [VString "format"; VString "a string"; VString (Name t)]])%list /\
      Current (Format X f c) = Current c)) /\
  (Kind' t ∉ numberKinds ->
   forall val,
     Minimum X val c
     = incompatibleAttributeType "minimum" (Name t)
         "an integer or a number" c /\
     Maximum X val c
     = incompatibleAttributeType "maximum" (Name t)
         "an integer or a number" c) /\
  (Kind' t ∉ lengthKinds ->
   forall n,
     MinLength n c
     = incompatibleAttributeType "minimum length" (Name t)
         "a string or an array" c /\
     MaxLength n c
     = incompatibleAttributeType "maximum length" (Name t)
         "a string or an array" c).
Proof.
  intros Hcur Htype.
  assert (Hname : typeName a = Name t).
  { unfold typeName. rewrite Htype. reflexivity. }
  split; [ | split ].
  - intros Hkind.
    assert (Hno : unknownOr isString a = false).
    { unfold unknownOr, isString. rewrite Htype.
      apply bool_decide_eq_false. exact Hkind. }
    split.
    + intros p. rewrite (Pattern_step X a c Hcur), Hno, Hname. reflexivity.
    + intros f. rewrite (Format_step X a c Hcur). cbv zeta.
      rewrite Hno, Hname.
      destruct (IsSupportedValidationFormat X a f); simpl.
      * auto.
      * rewrite <- app_assoc. auto.
  - intros Hkind val.
    assert (Hno : unknownOr isNumber a = false).
    { unfold unknownOr, isNumber. rewrite Htype, notNumberKind_spec.
      rewrite negb_involutive. apply bool_decide_eq_false. exact Hkind. }
    rewrite (Minimum_step X a c Hcur), (Maximum_step X a c Hcur), Hno, Hname.
    auto.
  - intros Hkind n.
    assert (Hno : unknownOr isLength a = false).
    { unfold unknownOr, isLength. rewrite Htype, notLengthKind_spec.
      rewrite negb_involutive. apply bool_decide_eq_false. exact Hkind. }
    rewrite (MinLength_step a c Hcur), (MaxLength_step a c Hcur), Hno, Hname.
    auto.
Qed.

End Kinds.

(** X4, witness. *)
Lemma kind_outside_allowed_set_witness :
  Minimum sample.env (VString "not-a-number")
    (fixtures.onAttribute (Some fixtures.String'))
  = incompatibleAttributeType "minimum" "string" "an integer or a number"
      (fixtures.onAttribute (Some fixtures.String')).
Proof.
  apply (kind_outside_allowed_set sample.env
           (fixtures.attribute (Some fixtures.String')) fixtures.String'
           (fixtures.onAttribute (Some fixtures.String')) eq_refl eq_refl).
  apply (proj1 (bool_decide_eq_false _)). reflexivity.
Defined.

(** *** Bounds are stored independently of each other *)

Lemma unknownOr_withValidation (P : Kind -> bool) (v : ValidationExpr)
  (a : AttributeExpr) :
  unknownOr P (withValidation v a) = unknownOr P a.
Proof. reflexivity. Qed.

Lemma stored_twice (v1 v2 : ValidationExpr) (a : AttributeExpr)
  (c : EvalState) :
  stored v2 (withValidation v1 a) (stored v1 a c) = stored v2 a c.
Proof. reflexivity. Qed.

(** X5.  On a plain attribute of unknown type or of kind bytes, string, array
    or map, [MinLength] and [MaxLength] store any two integers, in either
    order of the calls and with the same final state: no error is reported
    when the minimum exceeds the maximum or when a bound is negative. *)
Theorem length_bounds_are_independent (n m : Z) (a : AttributeExpr)
  (c : EvalState) :
  Current c = AttributeExprP a ->
  unknownOr isLength a = true ->
  MinLength n (MaxLength m c) = MaxLength m (MinLength n c) /\
  Errors (MaxLength m (MinLength n c)) = Errors c /\
  expr.MinLength (recordOf (Current (MaxLength m (MinLength n c)))) = Some n /\
  expr.MaxLength (recordOf (Current (MaxLength m (MinLength n c)))) = Some m.
Proof.
  intros Hcur Hkind.
  rewrite (MinLength_step a c Hcur), (MaxLength_step a c Hcur), Hkind.
  rewrite (MinLength_step (withValidation (setMaxLength m (validationOf a)) a)
             (stored _ a c) eq_refl).
  rewrite (MaxLength_step (withValidation (setMinLength n (validationOf a)) a)
             (stored _ a c) eq_refl).
  rewrite !unknownOr_withValidation, Hkind.
  repeat split.
Qed.

(** X5, witness. *)
Lemma length_bounds_are_independent_witness :
  MinLength 5 (MaxLength (-1) (fixtures.onAttribute (Some fixtures.String')))
  = MaxLength (-1) (MinLength 5 (fixtures.onAttribute (Some fixtures.String'))).
Proof.
  apply (length_bounds_are_independent 5 (-1)
           (fixtures.attribute (Some fixtures.String'))
           (fixtures.onAttribute (Some fixtures.String')));
    reflexivity.
Defined.

Section NumberBounds.

Variable X : Externals.

(** X6.  On a plain attribute of unknown type or of an integer or floating
    kind, [Minimum] and [Maximum] with two arguments that convert store
    both numbers, in either order of the calls and with the same final
    state: the two bounds are never compared. *)
Theorem number_bounds_are_independent (lo hi : GoVal) (f g : float)
  (a : AttributeExpr) (c : EvalState) :
  Current c = AttributeExprP a ->
  unknownOr isNumber a = true ->
  numberValue X lo = Some f ->
  numberValue X hi = Some g ->
  Minimum X lo (Maximum X hi c) = Maximum X hi (Minimum X lo c) /\
  Errors (Maximum X hi (Minimum X lo c)) = Errors c /\
  expr.Minimum (recordOf (Current (Maximum X hi (Minimum X lo c)))) = Some f /\
  expr.Maximum (recordOf (Current (Maximum X hi (Minimum X lo c)))) = Some g.
Proof.
  intros Hcur Hkind Hlo Hhi.
  rewrite (Minimum_step X a c Hcur), (Maximum_step X a c Hcur), Hkind, Hlo, Hhi.
  rewrite (Minimum_step X (withValidation (setMaximum g (validationOf a)) a)
             (stored _ a c) eq_refl).
  rewrite (Maximum_step X (withValidation (setMinimum f (validationOf a)) a)
             (stored _ a c) eq_refl).
  rewrite !unknownOr_withValidation, Hkind, Hlo, Hhi.
  repeat split.
Qed.

End NumberBounds.

(** X6, witness. *)
Lemma number_bounds_are_independent_witness :
  Minimum sample.env (VString "10")
    (Maximum sample.env (VInteger TInt8 2) (fixtures.onAttribute (Some fixtures.Int)))
  = Maximum sample.env (VInteger TInt8 2)
      (Minimum sample.env (VString "10") (fixtures.onAttribute (Some fixtures.Int))).
Proof.
  apply (number_bounds_are_independent sample.env (VString "10")
           (VInteger TInt8 2) 10%float 2%float
           (fixtures.attribute (Some fixtures.Int))
           (fixtures.onAttribute (Some fixtures.Int)));
    reflexivity.
Defined.

(** *** A later call replaces an earlier one *)

Lemma Current_incompatibleAttributeType (validation actual expected : string)
  (c : EvalState) :
  Current (incompatibleAttributeType validation actual expected c) = Current c.
Proof. reflexivity. Qed.

Section Replacement.

Variable X : Externals.

(** Rewrites the two calls of a function on the attribute [a] with the
    one-step lemma [step] and closes the goal by cases on the kind test
    [test]. *)
Ltac two_calls step a c Hcur test :=
  rewrite (step a c Hcur);
  destruct test eqn:Hkind;
  [ rewrite (step (withValidation _ a) (stored _ a c) eq_refl);
    rewrite unknownOr_withValidation, Hkind
  | rewrite (step a (incompatibleAttributeType _ _ _ c) Hcur), Hkind ].

Lemma Enum_replaces (v1 v2 : list GoVal) (c : EvalState) :
  (forall t, typeOf (Current c) = Some t ->
             forallb (IsCompatible t) v2 = true) ->
  Current (Enum X v2 (Enum X v1 c)) = Current (Enum X v2 c).
Proof.
  intros Hv2.
  destruct (Current c) as [ | a | | | | | ] eqn:Hcur;
    try (unfold Enum; repeat (rewrite Hcur; simpl); reflexivity).
  rewrite (Enum_step X a c Hcur v2), (Enum_step X a c Hcur v1).
  destruct (Type' a) as [t|] eqn:Htype.
  - assert (Hok : forallb (IsCompatible t) v2 = true).
    { apply Hv2. unfold typeOf. simpl. exact Htype. }
    rewrite Hok.
    destruct (forallb (IsCompatible t) v1).
    + rewrite (Enum_step X (withValidation _ a) (stored _ a c) eq_refl).
      simpl. rewrite Htype, Hok. reflexivity.
    + match goal with
      | |- Current (Enum X v2 ?c1) = _ =>
          rewrite (Enum_step X a c1 Hcur v2)
      end.
      rewrite Htype, Hok. reflexivity.
  - rewrite (Enum_step X (withValidation _ a) (stored _ a c) eq_refl).
    simpl. rewrite Htype. reflexivity.
Qed.

Lemma Format_replaces (f1 f2 : ValidationFormat) (c : EvalState) :
  Current (Format X f2 (Format X f1 c)) = Current (Format X f2 c).
Proof.
  destruct (Current c) as [ | a | | | | | ] eqn:Hcur;
    try (unfold Format; repeat (rewrite Hcur; simpl); reflexivity).
  rewrite (Format_step X a c Hcur f2), (Format_step X a c Hcur f1).
  cbv zeta.
  destruct (unknownOr isString a) eqn:Hkind.
  - rewrite (Format_step X (withValidation _ a) (stored _ a _) eq_refl).
    cbv zeta. rewrite unknownOr_withValidation, Hkind. reflexivity.
  - match goal with
    | |- Current (Format X f2 ?c1) = _ =>
        rewrite (Format_step X a c1)
    end.
    + cbv zeta. rewrite Hkind. simpl.
      destruct (IsSupportedValidationFormat X a f1);
        destruct (IsSupportedValidationFormat X a f2); reflexivity.
    + destruct (IsSupportedValidationFormat X a f1); exact Hcur.
Qed.

Lemma MinLength_replaces (n1 n2 : Z) (c : EvalState) :
  Current (MinLength n2 (MinLength n1 c)) = Current (MinLength n2 c).
Proof.
  destruct (Current c) as [ | a | | | | | ] eqn:Hcur;
    try (unfold MinLength; repeat (rewrite Hcur; simpl); reflexivity).
  rewrite (MinLength_step a c Hcur n2).
  two_calls MinLength_step a c Hcur (unknownOr isLength a); reflexivity.
Qed.

Lemma MaxLength_replaces (n1 n2 : Z) (c : EvalState) :
  Current (MaxLength n2 (MaxLength n1 c)) = Current (MaxLength n2 c).
Proof.
  destruct (Current c) as [ | a | | | | | ] eqn:Hcur;
    try (unfold MaxLength; repeat (rewrite Hcur; simpl); reflexivity).
  rewrite (MaxLength_step a c Hcur n2).
  two_calls MaxLength_step a c Hcur (unknownOr isLength a); reflexivity.
Qed.

Lemma Pattern_replaces (p1 p2 : string) (c : EvalState) :
  regexp_Compile X p2 = None ->
  Current (Pattern X p2 (Pattern X p1 c)) = Current (Pattern X p2 c).
Proof.
  intros Hp2.
  destruct (Current c) as [ | a | | | | | ] eqn:Hcur;
    try (unfold Pattern; repeat (rewrite Hcur; simpl); reflexivity).
  rewrite (Pattern_step X a c Hcur p2), (Pattern_step X a c Hcur p1), Hp2.
  destruct (unknownOr isString a) eqn:Hkind.
  - destruct (regexp_Compile X p1) as [err|].
    + rewrite (Pattern_step X a (ReportError _ _ c) Hcur), Hkind, Hp2.
      reflexivity.
    + rewrite (Pattern_step X (withValidation _ a) (stored _ a c) eq_refl).
      rewrite unknownOr_withValidation, Hkind, Hp2. reflexivity.
  - rewrite (Pattern_step X a (incompatibleAttributeType _ _ _ c) Hcur), Hkind.
    reflexivity.
Qed.

Lemma Minimum_replaces (v1 v2 : GoVal) (c : EvalState) :
  is_Some (numberValue X v2) ->
  Current (Minimum X v2 (Minimum X v1 c)) = Current (Minimum X v2 c).
Proof.
  intros [f2 Hv2].
  destruct (Current c) as [ | a | | | | | ] eqn:Hcur;
    try (unfold Minimum; repeat (rewrite Hcur; simpl); reflexivity).
  rewrite (Minimum_step X a c Hcur v2), (Minimum_step X a c Hcur v1), Hv2.
  destruct (unknownOr isNumber a) eqn:Hkind.
  - destruct (numberValue X v1) as [f1|].
    + rewrite (Minimum_step X (withValidation _ a) (stored _ a c) eq_refl).
      rewrite unknownOr_withValidation, Hkind, Hv2. reflexivity.
    + rewrite (Minimum_step X a (ReportError _ _ c) Hcur), Hkind, Hv2.
      reflexivity.
  - rewrite (Minimum_step X a (incompatibleAttributeType _ _ _ c) Hcur), Hkind.
    reflexivity.
Qed.

Lemma Maximum_replaces (v1 v2 : GoVal) (c : EvalState) :
  is_Some (numberValue X v2) ->
  Current (Maximum X v2 (Maximum X v1 c)) = Current (Maximum X v2 c).
Proof.
  intros [f2 Hv2].
  destruct (Current c) as [ | a | | | | | ] eqn:Hcur;
    try (unfold Maximum; repeat (rewrite Hcur; simpl); reflexivity).
  rewrite (Maximum_step X a c Hcur v2), (Maximum_step X a c Hcur v1), Hv2.
  destruct (unknownOr isNumber a) eqn:Hkind.
  - destruct (numberValue X v1) as [f1|].
    + rewrite (Maximum_step X (withValidation _ a) (stored _ a c) eq_refl).
      rewrite unknownOr_withValidation, Hkind, Hv2. reflexivity.
    + rewrite (Maximum_step X a (ReportError _ _ c) Hcur), Hkind, Hv2.
      reflexivity.
  - rewrite (Maximum_step X a (incompatibleAttributeType _ _ _ c) Hcur), Hkind.
    reflexivity.
Qed.

(** X7.  Calling a constraint function again replaces what the earlier call
    stored: the target after two calls is the target after the second call
    alone, whatever the earlier argument was and whether or not the
    earlier call failed.  For [Format], [MinLength] and [MaxLength] this
    holds for every pair of arguments; for [Enum], [Pattern], [Minimum]
    and [Maximum] it holds when the later argument is one that the call
    stores (values that a known type accepts, an expression that compiles,
    a value that converts). *)
Theorem later_call_replaces_earlier (c : EvalState) :
  (forall v1 v2,
     (forall t, typeOf (Current c) = Some t ->
                forallb (IsCompatible t) v2 = true) ->
     Current (Enum X v2 (Enum X v1 c)) = Current (Enum X v2 c)) /\
  (forall f1 f2,
     Current (Format X f2 (Format X f1 c)) = Current (Format X f2 c)) /\
  (forall n1 n2,
     Current (MinLength n2 (MinLength n1 c)) = Current (MinLength n2 c)) /\
  (forall n1 n2,
     Current (MaxLength n2 (MaxLength n1 c)) = Current (MaxLength n2 c)) /\
  (forall p1 p2, regexp_Compile X p2 = None ->
     Current (Pattern X p2 (Pattern X p1 c)) = Current (Pattern X p2 c)) /\
  (forall v1 v2, is_Some (numberValue X v2) ->
     Current (Minimum X v2 (Minimum X v1 c)) = Current (Minimum X v2 c)) /\
  (forall v1 v2, is_Some (numberValue X v2) ->
     Current (Maximum X v2 (Maximum X v1 c)) = Current (Maximum X v2 c)).
Proof.
  repeat split; intros.
  - apply Enum_replaces. assumption.
  - apply Format_replaces.
  - apply MinLength_replaces.
  - apply MaxLength_replaces.
  - apply Pattern_replaces. assumption.
  - apply Minimum_replaces. assumption.
  - apply Maximum_replaces. assumption.
Qed.

End Replacement.

(** *** What a call leaves alone *)

Lemma keepsAllBut_refl (fd : Field) (c c' : EvalState) :
  Current c' = Current c -> keepsAllBut fd c c'.
Proof.
  intros Heq. unfold keepsAllBut. rewrite Heq.
  repeat split. intros g _. destruct g; reflexivity.
Qed.

Section Frame.

Variable X : Externals.

(** Closes [keepsAllBut fd c (F c)] once [F c] is rewritten by its
    one-step lemma: the call either stored a record that differs from the
    earlier one in [fd] only, or left the target alone. *)
Ltac frame_cases Hcur :=
  repeat match goal with
         | |- context [if ?b then _ else _] => destruct b
         | |- context [match ?o with Some _ => _ | None => _ end] => destruct o
         end;
  try (apply keepsAllBut_refl; simpl; reflexivity);
  unfold keepsAllBut, stored, typeOf, recordOf; simpl; rewrite Hcur; simpl;
  repeat split;
  intros g Hg; destruct g; simpl; try reflexivity; contradiction.

(** X8.  A constraint function changes at most its own field.  After [Enum],
    [Format], [Pattern], [Minimum], [Maximum], [MinLength] or [MaxLength]
    the target is of the variant it was, its attribute has the type and
    the metadata it had, and every other field of the validation record is
    as it was (as in the empty record, when the call created the
    record). *)
Theorem constraint_changes_one_field (c : EvalState) :
  (forall vals, keepsAllBut FValues c (Enum X vals c)) /\
  (forall f, keepsAllBut FFormat c (Format X f c)) /\
  (forall p, keepsAllBut FPattern c (Pattern X p c)) /\
  (forall val, keepsAllBut FMinimum c (Minimum X val c)) /\
  (forall val, keepsAllBut FMaximum c (Maximum X val c)) /\
  (forall n, keepsAllBut FMinLength c (MinLength n c)) /\
  (forall n, keepsAllBut FMaxLength c (MaxLength n c)).
Proof.
  assert (Hother : forall (F : EvalState -> EvalState) fd,
            F c = c -> keepsAllBut fd c (F c)).
  { intros F fd HF. rewrite HF. apply keepsAllBut_refl. reflexivity. }
  split; [ | split; [ | split; [ | split; [ | split; [ | split ] ] ] ] ];
    intros arg;
    (destruct (Current c) as [ | a | | | | | ] eqn:Hcur;
     try (apply Hother;
          unfold Enum, Format, Pattern, Minimum, Maximum, MinLength, MaxLength;
          rewrite Hcur; reflexivity)).
  - rewrite (Enum_step X a c Hcur). frame_cases Hcur.
  - rewrite (Format_step X a c Hcur). cbv zeta. frame_cases Hcur.
  - rewrite (Pattern_step X a c Hcur). frame_cases Hcur.
  - rewrite (Minimum_step X a c Hcur). frame_cases Hcur.
  - rewrite (Maximum_step X a c Hcur). frame_cases Hcur.
  - rewrite (MinLength_step a c Hcur). frame_cases Hcur.
  - rewrite (MaxLength_step a c Hcur). frame_cases Hcur.
Qed.

End Frame.

(** *** Errors accumulate and never stand in the way *)

Lemma length_rejected (t : DataType) (vals : list GoVal) :
  forall k,
    length (rejected t k vals)
    = length (filter (fun v => IsCompatible t v = false) vals).
Proof.
  induction vals as [|w rest IH]; intros k; simpl; [reflexivity | ].
  rewrite filter_cons.
  destruct (IsCompatible t w); destruct (decide _) as [Hd|Hd];
    simpl; try rewrite IH; try reflexivity; try discriminate.
  exfalso. apply Hd. reflexivity.
Qed.

Section Errors.

Variable X : Externals.

(** X9.  [Enum] on a plain attribute of known type adds as many errors as there
    are values that the type rejects, and adds none exactly when the type
    accepts every value. *)
Theorem Enum_error_count (vals : list GoVal) (a : AttributeExpr)
  (t : DataType) (c : EvalState) :
  Current c = AttributeExprP a ->
  Type' a = Some t ->
  length (Errors (Enum X vals c))
  = (length (Errors c)
     + length (filter (fun v => IsCompatible t v = false) vals))%nat /\
  (Errors (Enum X vals c) = Errors c <->
   forallb (IsCompatible t) vals = true).
Proof.
  intros Hcur Htype. rewrite (Enum_step X a c Hcur), Htype.
  destruct (forallb (IsCompatible t) vals) eqn:Hall; simpl.
  - pose proof (proj2 (rejected_nil t vals 0%nat) Hall) as Hnil.
    rewrite <- (length_rejected t vals 0%nat), Hnil. simpl.
    split; [lia | tauto].
  - rewrite length_app, length_map, (length_rejected t vals 0%nat).
    split; [reflexivity | ].
    split; [ | discriminate ].
    intros Heq. exfalso.
    apply (f_equal (@length Error)) in Heq.
    rewrite length_app, length_map in Heq.
    assert (Hnil : rejected t 0 vals = []).
    { apply length_zero_iff_nil. lia. }
    apply (rejected_nil t vals 0%nat) in Hnil. congruence.
Qed.

(** Closes [reportsAtMost k c (F c)] once [F c] is rewritten by its
    one-step lemma. *)
Ltac count_errors :=
  repeat match goal with
         | |- context [if ?b then _ else _] => destruct b
         | |- context [match ?o with Some _ => _ | None => _ end] => destruct o
         end;
  unfold reportsAtMost; simpl;
  first [ exists []; rewrite app_nil_r; split; [reflexivity | simpl; lia]
        | eexists; split; [reflexivity | simpl; lia]
        | eexists; split; [rewrite <- app_assoc; reflexivity | simpl; lia] ].

(** X10.  No function removes or reorders an error reported before, and each
    adds a bounded number: [Enum] at most one for each value, [Format] at
    most two, every other function at most one. *)
Theorem errors_only_grow (c : EvalState) :
  (forall vals, reportsAtMost (length vals) c (Enum X vals c)) /\
  (forall f, reportsAtMost 2 c (Format X f c)) /\
  (forall p, reportsAtMost 1 c (Pattern X p c)) /\
  (forall val, reportsAtMost 1 c (Minimum X val c)) /\
  (forall val, reportsAtMost 1 c (Maximum X val c)) /\
  (forall n, reportsAtMost 1 c (MinLength n c)) /\
  (forall n, reportsAtMost 1 c (MaxLength n c)) /\
  (forall names, reportsAtMost 1 c (Required names c)) /\
  (forall name value, reportsAtMost 1 c (Meta name value c)).
Proof.
  assert (Hother : forall (F : EvalState -> EvalState) k,
            F c = c -> reportsAtMost k c (F c)).
  { intros F k HF. rewrite HF. exists []. rewrite app_nil_r.
    split; [reflexivity | simpl; lia]. }
  split; [ | split; [ | split; [ | split; [ | split; [ | split;
    [ | split; [ | split ] ] ] ] ] ] ].
  - intros vals. destruct (Current c) as [ | a | | | | | ] eqn:Hcur;
      try (apply Hother; unfold Enum; rewrite Hcur; reflexivity).
    rewrite (Enum_step X a c Hcur).
    destruct (Type' a) as [t|]; [ | count_errors ].
    destruct (forallb (IsCompatible t) vals); [count_errors | ].
    eexists. split; [reflexivity | ].
    rewrite length_map, (length_rejected t vals 0%nat). apply length_filter.
  - intros f. destruct (Current c) as [ | a | | | | | ] eqn:Hcur;
      try (apply Hother; unfold Format; rewrite Hcur; reflexivity).
    rewrite (Format_step X a c Hcur). cbv zeta. count_errors.
  - intros p. destruct (Current c) as [ | a | | | | | ] eqn:Hcur;
      try (apply Hother; unfold Pattern; rewrite Hcur; reflexivity).
    rewrite (Pattern_step X a c Hcur). count_errors.
  - intros val. destruct (Current c) as [ | a | | | | | ] eqn:Hcur;
      try (apply Hother; unfold Minimum; rewrite Hcur; reflexivity).
    rewrite (Minimum_step X a c Hcur). count_errors.
  - intros val. destruct (Current c) as [ | a | | | | | ] eqn:Hcur;
      try (apply Hother; unfold Maximum; rewrite Hcur; reflexivity).
    rewrite (Maximum_step X a c Hcur). count_errors.
  - intros n. destruct (Current c) as [ | a | | | | | ] eqn:Hcur;
      try (apply Hother; unfold MinLength; rewrite Hcur; reflexivity).
    rewrite (MinLength_step a c Hcur). count_errors.
  - intros n. destruct (Current c) as [ | a | | | | | ] eqn:Hcur;
      try (apply Hother; unfold MaxLength; rewrite Hcur; reflexivity).
    rewrite (MaxLength_step a c Hcur). count_errors.
  - intros names. unfold Required, requiredOn.
    destruct (Current c) as [ | a | rt | | | | ]; simpl;
      try destruct (Type' a) as [t|];
      try destruct (Type' (Attribute rt)) as [t|];
      count_errors.
  - intros name value. unfold Meta.
    destruct (Current c); count_errors.
Qed.

(** X11.  A call does the same to the target and reports the same errors
    whatever was reported before it: the errors of earlier calls are
    carried along and never make a call fail or be skipped. *)
Theorem earlier_errors_do_not_matter (e : Expression) (es : list Error) :
  let c := {| Current := e; Errors := es |} in
  (forall vals, Enum X vals c = after es (Enum X vals (startOn e))) /\
  (forall f, Format X f c = after es (Format X f (startOn e))) /\
  (forall p, Pattern X p c = after es (Pattern X p (startOn e))) /\
  (forall val, Minimum X val c = after es (Minimum X val (startOn e))) /\
  (forall val, Maximum X val c = after es (Maximum X val (startOn e))) /\
  (forall n, MinLength n c = after es (MinLength n (startOn e))) /\
  (forall n, MaxLength n c = after es (MaxLength n (startOn e))) /\
  (forall names, Required names c = after es (Required names (startOn e))) /\
  (forall name value,
     Meta name value c = after es (Meta name value (startOn e))).
Proof.
  cbv zeta.
  assert (Hsame : {| Current := e; Errors := es |} = after es (startOn e)).
  { unfold after, startOn. simpl. rewrite app_nil_r. reflexivity. }
  split; [ | split; [ | split; [ | split; [ | split; [ | split;
    [ | split; [ | split ] ] ] ] ] ] ].
  - intros vals. destruct e as [ | a | | | | | ]; try exact Hsame.
    rewrite (Enum_step X a {| Current := AttributeExprP a; Errors := es |}
               eq_refl).
    rewrite (Enum_step X a (startOn (AttributeExprP a)) eq_refl).
    unfold after, stored, startOn. simpl.
    destruct (Type' a) as [t|]; [ | simpl; rewrite app_nil_r; reflexivity ].
    destruct (forallb (IsCompatible t) vals); simpl;
      [rewrite app_nil_r | ]; reflexivity.
  - intros f. destruct e as [ | a | | | | | ]; try exact Hsame.
    unfold Format, after, startOn, incompatibleAttributeType, ReportError.
    simpl.
    destruct (IsSupportedValidationFormat X a f);
      destruct (Type' a) as [t|]; simpl;
      repeat case_bool_decide; simpl;
      rewrite ?app_nil_r, <- ?app_assoc; reflexivity.
  - intros p. destruct e as [ | a | | | | | ]; try exact Hsame.
    unfold Pattern, after, startOn, incompatibleAttributeType, ReportError.
    simpl.
    destruct (regexp_Compile X p);
      destruct (Type' a) as [t|]; simpl;
      repeat case_bool_decide; simpl;
      rewrite ?app_nil_r, <- ?app_assoc; reflexivity.
  - intros val. destruct e as [ | a | | | | | ]; try exact Hsame.
    unfold Minimum, after, startOn, incompatibleAttributeType, ReportError.
    simpl.
    destruct (numberValue X val);
      destruct (Type' a) as [t|]; simpl;
      try destruct (notNumberKind (Kind' t)); simpl;
      rewrite ?app_nil_r, <- ?app_assoc; reflexivity.
  - intros val. destruct e as [ | a | | | | | ]; try exact Hsame.
    unfold Maximum, after, startOn, incompatibleAttributeType, ReportError.
    simpl.
    destruct (numberValue X val);
      destruct (Type' a) as [t|]; simpl;
      try destruct (notNumberKind (Kind' t)); simpl;
      rewrite ?app_nil_r, <- ?app_assoc; reflexivity.
  - intros n. destruct e as [ | a | | | | | ]; try exact Hsame.
    unfold MinLength, after, startOn, incompatibleAttributeType, ReportError.
    simpl.
    destruct (Type' a) as [t|]; simpl;
      try destruct (notLengthKind (Kind' t)); simpl;
      rewrite ?app_nil_r, <- ?app_assoc; reflexivity.
  - intros n. destruct e as [ | a | | | | | ]; try exact Hsame.
    unfold MaxLength, after, startOn, incompatibleAttributeType, ReportError.
    simpl.
    destruct (Type' a) as [t|]; simpl;
      try destruct (notLengthKind (Kind' t)); simpl;
      rewrite ?app_nil_r, <- ?app_assoc; reflexivity.
  - intros names.
    unfold Required, requiredOn, after, startOn, incompatibleAttributeType,
      ReportError, IncompatibleDSL.
    destruct e as [ | a | rt | | | | ]; simpl;
      try destruct (Type' a) as [t|];
      try destruct (Type' (Attribute rt)) as [t|];
      simpl; repeat case_bool_decide; simpl;
      rewrite ?app_nil_r, <- ?app_assoc; reflexivity.
  - intros name value. unfold Meta, after, startOn, IncompatibleDSL.
    destruct e; simpl; rewrite ?app_nil_r; reflexivity.
Qed.

End Errors.

(** X9, witness. *)
Lemma Enum_error_count_witness :
  length
    (Errors
       (Enum sample.env [VString "one"; VInteger TInt 2; VBool true]
          (fixtures.onAttribute (Some fixtures.Int))))
  = 2%nat.
Proof.
  apply (Enum_error_count sample.env
           [VString "one"; VInteger TInt 2; VBool true]
           (fixtures.attribute (Some fixtures.Int)) fixtures.Int
           (fixtures.onAttribute (Some fixtures.Int)));
    reflexivity.
Defined.

(** *** Constraints and metadata do not interfere *)

Section Interplay.

Variable X : Externals.

(** Closes a goal [Meta name value (F c) = F (Meta name value c)] on a
    plain attribute after both sides are unfolded. *)
Ltac swap_cases :=
  repeat match goal with
         | |- context [if ?b then _ else _] => destruct b
         | |- context [match ?o with Some _ => _ | None => _ end] => destruct o
         end;
  reflexivity.

(** X12.  [Meta] and a constraint function can be called in either order, on
    every target: the constraint does not read the metadata and [Meta]
    does not read the validation record.  For [Format] the two orders give
    the same target. *)
Theorem Meta_commutes_with_constraints (name : string) (value : list string)
  (c : EvalState) :
  (forall vals,
     Meta name value (Enum X vals c) = Enum X vals (Meta name value c)) /\
  (forall p,
     Meta name value (Pattern X p c) = Pattern X p (Meta name value c)) /\
  (forall val,
     Meta name value (Minimum X val c) = Minimum X val (Meta name value c)) /\
  (forall val,
     Meta name value (Maximum X val c) = Maximum X val (Meta name value c)) /\
  (forall n,
     Meta name value (MinLength n c) = MinLength n (Meta name value c)) /\
  (forall n,
     Meta name value (MaxLength n c) = MaxLength n (Meta name value c)) /\
  (forall names,
     Meta name value (Required names c) = Required names (Meta name value c)) /\
  (forall f,
     Current (Meta name value (Format X f c))
     = Current (Format X f (Meta name value c))).
Proof.
  destruct c as [e es].
  split; [ | split; [ | split; [ | split; [ | split; [ | split; [ | split ] ] ] ] ] ].
  - intros vals. destruct e as [ | a | | | | | ]; try reflexivity.
    rewrite (Enum_step X a {| Current := AttributeExprP a; Errors := es |}
               eq_refl).
    unfold Meta at 2. simpl.
    match goal with
    | |- _ = Enum X vals (setCurrent (AttributeExprP ?a1) ?c1) =>
        rewrite (Enum_step X a1 (setCurrent (AttributeExprP a1) c1) eq_refl)
    end.
    simpl. swap_cases.
  - intros p. destruct e as [ | a | | | | | ]; try reflexivity.
    unfold Pattern, Meta. simpl. swap_cases.
  - intros val. destruct e as [ | a | | | | | ]; try reflexivity.
    unfold Minimum, Meta. simpl. swap_cases.
  - intros val. destruct e as [ | a | | | | | ]; try reflexivity.
    unfold Maximum, Meta. simpl. swap_cases.
  - intros n. destruct e as [ | a | | | | | ]; try reflexivity.
    unfold MinLength, Meta. simpl. swap_cases.
  - intros n. destruct e as [ | a | | | | | ]; try reflexivity.
    unfold MaxLength, Meta. simpl. swap_cases.
  - intros names. destruct e as [ | a | rt | | | | ]; try reflexivity;
      unfold Required, requiredOn, Meta; simpl; swap_cases.
  - intros f. destruct e as [ | a | | | | | ]; try reflexivity.
    unfold Format, Meta. simpl. swap_cases.
Qed.

End Interplay.

(** *** A result type as the target *)

(** X13.  [Required] on a result type does to the embedded attribute what it
    does to that attribute as a plain target, and reports the same errors;
    [Meta] likewise, also through another composite expression.  The type
    name and the identifier of the result type are kept. *)
Theorem result_type_acts_through_its_attribute (rt : ResultTypeExpr)
  (es : list Error) :
  let onAttribute := {| Current := AttributeExprP (Attribute rt); Errors := es |} in
  let onResultType := {| Current := ResultTypeExprP rt; Errors := es |} in
  let onComposite := {| Current := CompositeExprV (Attribute rt); Errors := es |} in
  (forall names,
   exists a' : AttributeExpr,
     Current (Required names onAttribute) = AttributeExprP a' /\
     Current (Required names onResultType)
     = ResultTypeExprP
         {| Attribute := a'; TypeName := TypeName rt;
            Identifier := Identifier rt |} /\
     Errors (Required names onResultType)
     = Errors (Required names onAttribute)) /\
  (forall name value,
   exists a' : AttributeExpr,
     Meta name value onAttribute
     = {| Current := AttributeExprP a'; Errors := es |} /\
     Meta name value onResultType
     = {| Current :=
            ResultTypeExprP
              {| Attribute := a'; TypeName := TypeName rt;
                 Identifier := Identifier rt |};
          Errors := es |} /\
     Meta name value onComposite
     = {| Current := CompositeExprV a'; Errors := es |}).
Proof.
  cbv zeta. split.
  - intros names. unfold Required, requiredOn. simpl.
    destruct (Type' (Attribute rt)) as [t|]; simpl;
      [case_bool_decide | ]; simpl; eexists; repeat split.
    destruct rt; reflexivity.
  - intros name value. eexists. repeat split.
Qed.

(** *** When a call reports nothing *)

Lemma errors_grew (es new : list Error) :
  (es ++ new)%list = es <-> new = [].
Proof.
  split; [ | intros ->; apply app_nil_r ].
  intros Heq. apply (f_equal (@length Error)) in Heq.
  rewrite length_app in Heq. apply length_zero_iff_nil. lia.
Qed.

Section Silence.

Variable X : Externals.

(** Decides [Errors (F c) = Errors c <-> P] once [F c] is rewritten by its
    one-step lemma and the tests that [P] names are split. *)
Ltac silent_cases :=
  unfold stored, incompatibleAttributeType, ReportError; simpl;
  rewrite <- ?app_assoc, ?errors_grew; simpl;
  split; intros H;
  [ try discriminate H; repeat split; eauto
  | try reflexivity; exfalso;
    repeat match goal with
           | H : _ /\ _ |- _ => destruct H
           | H : is_Some None |- _ => destruct H as [? H]
           end;
    discriminate ].

(** X14.  On a plain attribute a call reports nothing exactly when its argument
    is valid for the type: for [Enum] when the type is unknown or accepts
    every value, for [Format] when the tag is supported and the type is
    unknown or a string, for [Pattern] when the type is unknown or a
    string and the expression compiles, for [Minimum] and [Maximum] when
    the type is unknown or numeric and the value converts, for
    [MinLength] and [MaxLength] when the type is unknown or has a
    length. *)
Theorem silent_exactly_when_valid (a : AttributeExpr) (c : EvalState) :
  Current c = AttributeExprP a ->
  (forall vals,
     Errors (Enum X vals c) = Errors c <->
     (forall t, Type' a = Some t -> forallb (IsCompatible t) vals = true)) /\
  (forall f,
     Errors (Format X f c) = Errors c <->
     IsSupportedValidationFormat X a f = true /\
     unknownOr isString a = true) /\
  (forall p,
     Errors (Pattern X p c) = Errors c <->
     unknownOr isString a = true /\ regexp_Compile X p = None) /\
  (forall val,
     Errors (Minimum X val c) = Errors c <->
     unknownOr isNumber a = true /\ is_Some (numberValue X val)) /\
  (forall val,
     Errors (Maximum X val c) = Errors c <->
     unknownOr isNumber a = true /\ is_Some (numberValue X val)) /\
  (forall n,
     Errors (MinLength n c) = Errors c <-> unknownOr isLength a = true) /\
  (forall n,
     Errors (MaxLength n c) = Errors c <-> unknownOr isLength a = true).
Proof.
  intros Hcur.
  split; [ | split; [ | split; [ | split; [ | split; [ | split ] ] ] ] ].
  - intros vals. rewrite (Enum_step X a c Hcur).
    destruct (Type' a) as [t|].
    + destruct (forallb (IsCompatible t) vals) eqn:Hall; simpl.
      * split; [ | reflexivity ].
        intros _ t' Ht'. injection Ht' as <-. exact Hall.
      * rewrite errors_grew. split.
        -- intros Hnil. apply map_eq_nil in Hnil.
           apply (rejected_nil t vals 0%nat) in Hnil. congruence.
        -- intros H. rewrite (H t eq_refl) in Hall. discriminate Hall.
    + simpl. split; [ | reflexivity ]. intros _ t' Ht'. discriminate Ht'.
  - intros f. rewrite (Format_step X a c Hcur). cbv zeta.
    destruct (IsSupportedValidationFormat X a f);
      destruct (unknownOr isString a); silent_cases.
  - intros p. rewrite (Pattern_step X a c Hcur).
    destruct (unknownOr isString a);
      [destruct (regexp_Compile X p) | ]; silent_cases.
  - intros val. rewrite (Minimum_step X a c Hcur).
    destruct (unknownOr isNumber a);
      [destruct (numberValue X val) | ]; silent_cases.
  - intros val. rewrite (Maximum_step X a c Hcur).
    destruct (unknownOr isNumber a);
      [destruct (numberValue X val) | ]; silent_cases.
  - intros n. rewrite (MinLength_step a c Hcur).
    destruct (unknownOr isLength a); silent_cases.
  - intros n. rewrite (MaxLength_step a c Hcur).
    destruct (unknownOr isLength a); silent_cases.
Qed.

(** X15.  Once the kind is allowed the type plays no further part: on a plain
    attribute of an allowed known kind, [Pattern], [Minimum], [Maximum],
    [MinLength] and [MaxLength] leave the validation record and the errors
    that they leave on the same attribute with its type forgotten. *)
Theorem allowed_kind_acts_as_unknown_type (a : AttributeExpr)
  (es : list Error) :
  let c := {| Current := AttributeExprP a; Errors := es |} in
  let c0 := {| Current := AttributeExprP (untyped a); Errors := es |} in
  (unknownOr isString a = true ->
   forall p,
     recordOf (Current (Pattern X p c)) = recordOf (Current (Pattern X p c0)) /\
     Errors (Pattern X p c) = Errors (Pattern X p c0)) /\
  (unknownOr isNumber a = true ->
   forall val,
     recordOf (Current (Minimum X val c))
     = recordOf (Current (Minimum X val c0)) /\
     Errors (Minimum X val c) = Errors (Minimum X val c0) /\
     recordOf (Current (Maximum X val c))
     = recordOf (Current (Maximum X val c0)) /\
     Errors (Maximum X val c) = Errors (Maximum X val c0)) /\
  (unknownOr isLength a = true ->
   forall n,
     recordOf (Current (MinLength n c)) = recordOf (Current (MinLength n c0)) /\
     Errors (MinLength n c) = Errors (MinLength n c0) /\
     recordOf (Current (MaxLength n c)) = recordOf (Current (MaxLength n c0)) /\
     Errors (MaxLength n c) = Errors (MaxLength n c0)).
Proof.
  cbv zeta.
  set (c := {| Current := AttributeExprP a; Errors := es |}).
  set (c0 := {| Current := AttributeExprP (untyped a); Errors := es |}).
  split; [ | split ].
  - intros Hkind p.
    rewrite (Pattern_step X a c eq_refl), (Pattern_step X (untyped a) c0 eq_refl).
    rewrite Hkind. simpl.
    destruct (regexp_Compile X p); auto.
  - intros Hkind val.
    rewrite (Minimum_step X a c eq_refl), (Minimum_step X (untyped a) c0 eq_refl).
    rewrite (Maximum_step X a c eq_refl), (Maximum_step X (untyped a) c0 eq_refl).
    rewrite Hkind. simpl.
    destruct (numberValue X val); auto.
  - intros Hkind n.
    rewrite (MinLength_step a c eq_refl), (MinLength_step (untyped a) c0 eq_refl).
    rewrite (MaxLength_step a c eq_refl), (MaxLength_step (untyped a) c0 eq_refl).
    rewrite Hkind. simpl. auto.
Qed.

End Silence.

(** X14, witness. *)
Lemma silent_exactly_when_valid_witness :
  Errors (Pattern sample.env "[a-z]+" (fixtures.onAttribute (Some fixtures.String')))
  = Errors (fixtures.onAttribute (Some fixtures.String')).
Proof.
  apply (silent_exactly_when_valid sample.env
           (fixtures.attribute (Some fixtures.String'))
           (fixtures.onAttribute (Some fixtures.String')) eq_refl).
  split; reflexivity.
Defined.

(** *** What a successful Enum stores *)

Section StoredValues.

Variable X : Externals.

(** X16.  After a successful [Enum] no stored value is an [expr.MapVal] or an
    [expr.ArrayVal]: every such value given was replaced by a plain map or
    slice. *)
Theorem Enum_stores_no_MapVal_or_ArrayVal (vals : list GoVal)
  (a : AttributeExpr) (c : EvalState) :
  Current c = AttributeExprP a ->
  (forall t, Type' a = Some t -> forallb (IsCompatible t) vals = true) ->
  Forall (fun x => (forall m, x <> VMapVal m) /\ (forall l, x <> VArrayVal l))
    (Values (recordOf (Current (Enum X vals c)))).
Proof.
  intros Hcur Hok.
  assert (Hstored : Enum X vals c
            = stored (setValues (map (storedValue X) vals) (validationOf a))
                a c).
  { rewrite (Enum_step X a c Hcur).
    destruct (Type' a) as [t|]; [ | reflexivity ].
    rewrite (Hok t eq_refl). reflexivity. }
  rewrite Hstored. simpl.
  apply Forall_forall. intros x Hx.
  change (map (storedValue X) vals) with (storedValue X <$> vals) in Hx.
  apply list_elem_of_fmap in Hx as [v [-> _]].
  destruct v; simpl; split; intros; discriminate.
Qed.

End StoredValues.

(** X16, witness. *)
Lemma Enum_stores_no_MapVal_or_ArrayVal_witness :
  Forall (fun x => (forall m, x <> VMapVal m) /\ (forall l, x <> VArrayVal l))
    (Values
       (recordOf
          (Current
             (Enum sample.env [VArrayVal [VBool true]; VMapVal []]
                (fixtures.onAttribute None))))).
Proof.
  apply (Enum_stores_no_MapVal_or_ArrayVal sample.env
           [VArrayVal [VBool true]; VMapVal []]
           (fixtures.attribute None) (fixtures.onAttribute None) eq_refl).
  intros t Htype. discriminate Htype.
Defined.
